(** * States of Matter (Basics): the molecular-dynamics model

    A shallow embedding of the model classes of the simulation
    ([MoleculeForceAndMotionDataSet], [AbstractVerletAlgorithm],
    [MultipleParticleModel]) and the properties of them that the
    specification states.

    Conventions of the embedding.
    - A JavaScript [Number] that carries a physical quantity is an IEEE 754
      binary64 value, Rocq's primitive [float]: division by zero, [NaN] and
      the comparisons behave as they do in the program.
    - Counters and array indices are integers ([Z]); the quotient
      [numberOfAtoms / atomsPerMolecule] is the exact rational ([Qc]), which
      compares with the integers as the binary64 quotient does for the
      magnitudes a simulation reaches.
    - A JavaScript array is a finite map from its numeric keys to values: a
      key that was never written reads as [undefined] ([None]).
    - A method that can raise returns a [completion] next to the state it
      leaves behind, so the state at the point of a raise is kept.
    - [assert && assert( ... )] is the debug-build assertion idiom; the
      embedding is of the production build, where [assert] is not set.
    - The sources are a port from Java in progress, and the embedding is of
      what they do as JavaScript.  A typed local declaration is read as a
      [var] declaration.  A name that nothing in its module binds ([System],
      [WaterMoleculeStructure], a method called without a receiver) raises a
      [ReferenceError] where it is evaluated.  A property that no code sets
      reads as [undefined].
    - A method that is called and defined nowhere among the sources is
      modelled from the specification and marked so; a constant or a library
      function that is not among the sources is a [Variable] of the section
      that uses it. *)

From Stdlib Require Import ZArith Floats QArith Qcanon Qround Lia.
From stdpp Require Import gmap list fin_maps strings pretty.

Set Warnings "-inexact-float".
Set Default Proof Using "Type".

(** ** Binary64 numbers *)

Module Num.

Local Open Scope float_scope.

(** The [Number] holding an integer counter, exact below [2^53]. *)
Definition of_Z (z : Z) : float :=
  match z with
  | Z0 => 0
  | Zpos p => of_uint63 (Uint63.of_Z (Zpos p))
  | Zneg p => - of_uint63 (Uint63.of_Z (Zpos p))
  end.

(** [ToNumber] on a possibly [undefined] field. *)
Definition toNumber (o : option float) : float :=
  match o with
  | Some f => f
  | None => nan
  end.

(** [a !== b] on numbers. *)
Definition strict_neq (a b : float) : bool := negb (a =? b).

(** The sign of a number that is not zero, on its IEEE 754 form. *)
Definition sf_negative (f : spec_float) : Prop :=
  match f with
  | S754_infinity true | S754_finite true _ _ => True
  | _ => False
  end.

Definition sf_positive (f : spec_float) : Prop :=
  match f with
  | S754_infinity false | S754_finite false _ _ => True
  | _ => False
  end.

End Num.

(** ** The JavaScript run time: errors, arrays, counted loops *)

Module Js.

(** What a [throw] carries. *)
Inductive error : Type :=
| TypeError
| ReferenceError
| Error (message : string).

(** How the evaluation of a method body ends. *)
Inductive completion (A : Type) : Type :=
| Normal (a : A)
| Throw (e : error).

Arguments Normal {A} a.
Arguments Throw {A} e.

Definition is_normal {A} (c : completion A) : bool :=
  match c with
  | Normal _ => true
  | Throw _ => false
  end.

(** An array, by its numeric keys.  The program never reads [length] of the
    arrays modelled here. *)
Definition array (A : Type) : Type := gmap Qc A.

(** The key of an integer index. *)
Definition key (i : Z) : Qc := Qc_of_Z i.

(** [a[k]]: [None] is [undefined]. *)
Definition get {A} (a : array A) (k : Qc) : option A := a !! k.

(** [a[k] = v], where [v] may be [undefined]. *)
Definition set {A} (a : array A) (k : Qc) (v : option A) : array A :=
  partial_alter (fun _ => v) k a.

(** [t = a[p]; a[p] = a[q]; a[q] = t]. *)
Definition swap {A} (a : array A) (p q : Qc) : array A :=
  let t := get a p in
  let a1 := set a p (get a q) in
  set a1 q t.

(** The values a counter takes in [for ( i = start; i < bound; i += step )]:
    the test is made before each round, and [fuel] bounds the rounds. *)
Fixpoint counter_values (fuel : nat) (i : Z) (bound : Qc) (step : Z) : list Z :=
  match fuel with
  | O => []
  | S fuel' =>
      if decide (key i < bound)%Qc
      then i :: counter_values fuel' (i + step) bound step
      else []
  end.

(** With a step of at least one, [ceiling bound - start] rounds are enough. *)
Definition for_range (start : Z) (bound : Qc) (step : Z) : list Z :=
  counter_values (Z.to_nat (Qceiling (this bound) - start)) start bound step.

(** The same loop when the bound is read from a property that may be
    [undefined] ([None]): [i < undefined] compares [i] with [NaN], which is
    false, so no round runs. *)
Definition for_range_to (start : Z) (bound : option Qc) (step : Z) : list Z :=
  match bound with
  | Some b => for_range start b step
  | None => []
  end.

(** [a === b] where [a] may be [undefined] and [b] is a number. *)
Definition strict_eq (a : option Qc) (b : Qc) : bool :=
  match a with
  | Some q => bool_decide (q = b)
  | None => false
  end.

End Js.

(** ** DOT's [Vector2], as far as the model uses it *)

Module Vector2.

Record t : Type := make { x : float; y : float }.

(** [new Vector2()] *)
Definition zero : t := make 0%float 0%float.

Definition copy (v : t) : t := make (x v) (y v).

Definition setX (v : t) (x' : float) : t := make x' (y v).

Definition setY (v : t) (y' : float) : t := make (x v) y'.

End Vector2.
(** ** [MoleculeForceAndMotionDataSet]: positions, motion and forces of the molecules *)

Module MoleculeForceAndMotionDataSet.

Import Js.
Local Open Scope Z_scope.

(** The fields of the data set.  [atomsPerMolecule] is 1, 2 or 3 in every
    caller; its type keeps it a positive integer.  A field the constructor
    leaves unset is [None]. *)
Record t : Type := make {
  numberOfAtoms : Z;
  numberOfSafeMolecules : Z;
  atomsPerMolecule : positive;
  atomPositions : array Vector2.t;
  moleculeCenterOfMassPositions : array Vector2.t;
  moleculeVelocities : array Vector2.t;
  moleculeForces : array Vector2.t;
  nextMoleculeForces : array Vector2.t;
  moleculeRotationAngles : array float;
  moleculeRotationRates : array float;
  moleculeTorques : array float;
  nextMoleculeTorques : array float;
  moleculeMass : option float;
  moleculeRotationalInertia : option float
}.

(** Assignments to one field. *)

Definition with_numberOfAtoms (v : Z) (d : t) : t :=
  make v (numberOfSafeMolecules d) (atomsPerMolecule d) (atomPositions d)
    (moleculeCenterOfMassPositions d) (moleculeVelocities d) (moleculeForces d)
    (nextMoleculeForces d) (moleculeRotationAngles d) (moleculeRotationRates d)
    (moleculeTorques d) (nextMoleculeTorques d) (moleculeMass d)
    (moleculeRotationalInertia d).

Definition with_numberOfSafeMolecules (v : Z) (d : t) : t :=
  make (numberOfAtoms d) v (atomsPerMolecule d) (atomPositions d)
    (moleculeCenterOfMassPositions d) (moleculeVelocities d) (moleculeForces d)
    (nextMoleculeForces d) (moleculeRotationAngles d) (moleculeRotationRates d)
    (moleculeTorques d) (nextMoleculeTorques d) (moleculeMass d)
    (moleculeRotationalInertia d).

Definition with_atomPositions (v : array Vector2.t) (d : t) : t :=
  make (numberOfAtoms d) (numberOfSafeMolecules d) (atomsPerMolecule d) v
    (moleculeCenterOfMassPositions d) (moleculeVelocities d) (moleculeForces d)
    (nextMoleculeForces d) (moleculeRotationAngles d) (moleculeRotationRates d)
    (moleculeTorques d) (nextMoleculeTorques d) (moleculeMass d)
    (moleculeRotationalInertia d).

Definition with_moleculeCenterOfMassPositions (v : array Vector2.t) (d : t) : t :=
  make (numberOfAtoms d) (numberOfSafeMolecules d) (atomsPerMolecule d)
    (atomPositions d) v (moleculeVelocities d) (moleculeForces d)
    (nextMoleculeForces d) (moleculeRotationAngles d) (moleculeRotationRates d)
    (moleculeTorques d) (nextMoleculeTorques d) (moleculeMass d)
    (moleculeRotationalInertia d).

Definition with_moleculeVelocities (v : array Vector2.t) (d : t) : t :=
  make (numberOfAtoms d) (numberOfSafeMolecules d) (atomsPerMolecule d)
    (atomPositions d) (moleculeCenterOfMassPositions d) v (moleculeForces d)
    (nextMoleculeForces d) (moleculeRotationAngles d) (moleculeRotationRates d)
    (moleculeTorques d) (nextMoleculeTorques d) (moleculeMass d)
    (moleculeRotationalInertia d).

Definition with_moleculeForces (v : array Vector2.t) (d : t) : t :=
  make (numberOfAtoms d) (numberOfSafeMolecules d) (atomsPerMolecule d)
    (atomPositions d) (moleculeCenterOfMassPositions d) (moleculeVelocities d) v
    (nextMoleculeForces d) (moleculeRotationAngles d) (moleculeRotationRates d)
    (moleculeTorques d) (nextMoleculeTorques d) (moleculeMass d)
    (moleculeRotationalInertia d).

Definition with_nextMoleculeForces (v : array Vector2.t) (d : t) : t :=
  make (numberOfAtoms d) (numberOfSafeMolecules d) (atomsPerMolecule d)
    (atomPositions d) (moleculeCenterOfMassPositions d) (moleculeVelocities d)
    (moleculeForces d) v (moleculeRotationAngles d) (moleculeRotationRates d)
    (moleculeTorques d) (nextMoleculeTorques d) (moleculeMass d)
    (moleculeRotationalInertia d).

Definition with_moleculeRotationAngles (v : array float) (d : t) : t :=
  make (numberOfAtoms d) (numberOfSafeMolecules d) (atomsPerMolecule d)
    (atomPositions d) (moleculeCenterOfMassPositions d) (moleculeVelocities d)
    (moleculeForces d) (nextMoleculeForces d) v (moleculeRotationRates d)
    (moleculeTorques d) (nextMoleculeTorques d) (moleculeMass d)
    (moleculeRotationalInertia d).

Definition with_moleculeRotationRates (v : array float) (d : t) : t :=
  make (numberOfAtoms d) (numberOfSafeMolecules d) (atomsPerMolecule d)
    (atomPositions d) (moleculeCenterOfMassPositions d) (moleculeVelocities d)
    (moleculeForces d) (nextMoleculeForces d) (moleculeRotationAngles d) v
    (moleculeTorques d) (nextMoleculeTorques d) (moleculeMass d)
    (moleculeRotationalInertia d).

Definition with_moleculeTorques (v : array float) (d : t) : t :=
  make (numberOfAtoms d) (numberOfSafeMolecules d) (atomsPerMolecule d)
    (atomPositions d) (moleculeCenterOfMassPositions d) (moleculeVelocities d)
    (moleculeForces d) (nextMoleculeForces d) (moleculeRotationAngles d)
    (moleculeRotationRates d) v (nextMoleculeTorques d) (moleculeMass d)
    (moleculeRotationalInertia d).

Definition with_nextMoleculeTorques (v : array float) (d : t) : t :=
  make (numberOfAtoms d) (numberOfSafeMolecules d) (atomsPerMolecule d)
    (atomPositions d) (moleculeCenterOfMassPositions d) (moleculeVelocities d)
    (moleculeForces d) (nextMoleculeForces d) (moleculeRotationAngles d)
    (moleculeRotationRates d) (moleculeTorques d) v (moleculeMass d)
    (moleculeRotationalInertia d).

(** [getNumberOfMolecules]: [numberOfAtoms / atomsPerMolecule]. *)
Definition getNumberOfMolecules (d : t) : Qc :=
  (key (numberOfAtoms d) / key (Zpos (atomsPerMolecule d)))%Qc.

(** Modelled from the spec: the accessor [getAtomsPerMolecule()], which the
    calculator and the phase changer call and the class does not define; the
    data model gives it as the [atomsPerMolecule] of the data set. *)
Definition getAtomsPerMolecule (d : t) : positive := atomsPerMolecule d.

(** The property [numberOfMolecules], which the calculator and the model
    read.  Neither the constructor nor a method of the class sets it (the
    methods keep the count in a local variable of that name), so the read
    gives [undefined]. *)
Definition numberOfMolecules (d : t) : option Qc := None.

Section Methods.

(** [StatesOfMatterConstants.MAX_NUM_ATOMS] *)
Variable MAX_NUM_ATOMS : Z.
(** [StatesOfMatterConstants.DIATOMIC_PARTICLE_DISTANCE] *)
Variable DIATOMIC_PARTICLE_DISTANCE : float.
(** [Math.pow] of the run time *)
Variable Math_pow : float -> float -> float.

(** The object of the constructor before its default values are set: no
    atoms, no safe molecules, every array empty. *)
Definition empty (atomsPerMolecule : positive)
    (moleculeMass moleculeRotationalInertia : option float) : t :=
  {| numberOfAtoms := 0;
     numberOfSafeMolecules := 0;
     atomsPerMolecule := atomsPerMolecule;
     atomPositions := ∅;
     moleculeCenterOfMassPositions := ∅;
     moleculeVelocities := ∅;
     moleculeForces := ∅;
     nextMoleculeForces := ∅;
     moleculeRotationAngles := ∅;
     moleculeRotationRates := ∅;
     moleculeTorques := ∅;
     nextMoleculeTorques := ∅;
     moleculeMass := moleculeMass;
     moleculeRotationalInertia := moleculeRotationalInertia |}.

(** The constructor: an empty data set for molecules of [atomsPerMolecule]
    atoms.  For three atoms it sets [moleculeMass] and then asks
    [WaterMoleculeStructure] for the rotational inertia; the module binds no
    such name, so the construction raises. *)
Definition new (atomsPerMolecule : positive) : completion t :=
  if decide (atomsPerMolecule = 1%positive) then
    Normal (empty atomsPerMolecule (Some 1%float) None)
  else if decide (atomsPerMolecule = 2%positive) then
    Normal (empty atomsPerMolecule (Some 2%float)
              (Some (Math_pow DIATOMIC_PARTICLE_DISTANCE 2 / 2)%float))
  else if decide (atomsPerMolecule = 3%positive) then
    Throw ReferenceError
  else
    Normal (empty atomsPerMolecule None None).

(** [getNumberOfRemainingSlots]: how many more molecules can be added. *)
Definition getNumberOfRemainingSlots (d : t) : Qc :=
  (key MAX_NUM_ATOMS / key (Zpos (atomsPerMolecule d))
   - key (numberOfAtoms d) / key (Zpos (atomsPerMolecule d)))%Qc.

(** The monatomic loop of [calculateTemperatureFromKineticEnergy]. *)
Fixpoint sumTranslationalEnergy (d : t) (indices : list Z)
    (translationalKineticEnergy : float) : completion float :=
  match indices with
  | [] => Normal translationalKineticEnergy
  | i :: rest =>
      match get (moleculeVelocities d) (key i) with
      | None => Throw TypeError
      | Some v =>
          sumTranslationalEnergy d rest
            (translationalKineticEnergy
             + ((Vector2.x v * Vector2.x v) + (Vector2.y v * Vector2.y v)) / 2)%float
      end
  end.

(** The loop of the other branch: translational and rotational energy. *)
Fixpoint sumMoleculeEnergy (d : t) (indices : list Z)
    (translationalKineticEnergy rotationalKineticEnergy : float)
    : completion (float * float) :=
  match indices with
  | [] => Normal (translationalKineticEnergy, rotationalKineticEnergy)
  | i :: rest =>
      match get (moleculeVelocities d) (key i) with
      | None => Throw TypeError
      | Some v =>
          sumMoleculeEnergy d rest
            (translationalKineticEnergy
             + 0.5 * Num.toNumber (moleculeMass d)
               * (Math_pow (Vector2.x v) 2 + Math_pow (Vector2.y v) 2))%float
            (rotationalKineticEnergy
             + 0.5 * Num.toNumber (moleculeRotationalInertia d)
               * Math_pow (Num.toNumber (get (moleculeRotationRates d) (key i))) 2)%float
      end
  end.

(** [calculateTemperatureFromKineticEnergy]: the temperature of the system,
    in model units, from the kinetic energy of the molecules. *)
Definition calculateTemperatureFromKineticEnergy (d : t) : completion float :=
  let numberOfMolecules :=
    (Num.of_Z (numberOfAtoms d) / Num.of_Z (Zpos (atomsPerMolecule d)))%float in
  if decide (atomsPerMolecule d = 1%positive) then
    match sumTranslationalEnergy d (for_range 0 (key (numberOfAtoms d)) 1) 0%float with
    | Throw e => Throw e
    | Normal translationalKineticEnergy =>
        Normal (translationalKineticEnergy / Num.of_Z (numberOfAtoms d))%float
    end
  else
    match sumMoleculeEnergy d (for_range 0 (getNumberOfMolecules d) 1) 0%float 0%float with
    | Throw e => Throw e
    | Normal (translationalKineticEnergy, rotationalKineticEnergy) =>
        Normal ((translationalKineticEnergy + rotationalKineticEnergy)
                / numberOfMolecules / 1.5)%float
    end.

(** The first loop of [addMolecule]: the atoms of the molecule are copied in
    behind the atoms present; a missing atom position raises at [.copy()]. *)
Fixpoint copyAtomPositions (given : list Vector2.t) (indices : list Z) (d : t)
    : completion unit * t :=
  match indices with
  | [] => (Normal tt, d)
  | i :: rest =>
      match given !! Z.to_nat i with
      | None => (Throw TypeError, d)
      | Some p =>
          copyAtomPositions given rest
            (with_atomPositions
               (set (atomPositions d) (key (i + numberOfAtoms d)) (Some (Vector2.copy p))) d)
      end
  end.

(** [addMolecule]: add a molecule, which stays "unsafe" until the calculator
    says otherwise.  [true] if it could be added. *)
Definition addMolecule (atomPositions : list Vector2.t)
    (moleculeCenterOfMassPosition moleculeVelocity : Vector2.t)
    (moleculeRotationRate : float) (d : t) : completion bool * t :=
  if decide (getNumberOfRemainingSlots d = 0%Qc) then (Normal false, d)
  else
    match copyAtomPositions atomPositions
            (for_range 0 (key (Zpos (atomsPerMolecule d))) 1) d with
    | (Throw e, d1) => (Throw e, d1)
    | (Normal _, d1) =>
        let numberOfMolecules := getNumberOfMolecules d1 in
        let d2 := with_moleculeCenterOfMassPositions
                    (set (moleculeCenterOfMassPositions d1) numberOfMolecules
                       (Some moleculeCenterOfMassPosition)) d1 in
        let d3 := with_moleculeVelocities
                    (set (moleculeVelocities d2) numberOfMolecules
                       (Some moleculeVelocity)) d2 in
        let d4 := with_moleculeRotationRates
                    (set (moleculeRotationRates d3) numberOfMolecules
                       (Some moleculeRotationRate)) d3 in
        let d5 := with_moleculeForces
                    (set (moleculeForces d4) numberOfMolecules (Some Vector2.zero)) d4 in
        let d6 := with_nextMoleculeForces
                    (set (nextMoleculeForces d5) numberOfMolecules (Some Vector2.zero)) d5 in
        (Normal true,
         with_numberOfAtoms (numberOfAtoms d6 + Zpos (atomsPerMolecule d6)) d6)
    end.

(** One round of the first loop of [removeMolecule]: every per-molecule
    array takes at [i] what it holds at [i + 1]. *)
Definition shiftMoleculeData (i : Z) (d : t) : t :=
  let shift {A} (a : array A) : array A := set a (key i) (get a (key (i + 1))) in
  let d1 := with_moleculeCenterOfMassPositions (shift (moleculeCenterOfMassPositions d)) d in
  let d2 := with_moleculeVelocities (shift (moleculeVelocities d1)) d1 in
  let d3 := with_moleculeForces (shift (moleculeForces d2)) d2 in
  let d4 := with_nextMoleculeForces (shift (nextMoleculeForces d3)) d3 in
  let d5 := with_moleculeRotationAngles (shift (moleculeRotationAngles d4)) d4 in
  let d6 := with_moleculeRotationRates (shift (moleculeRotationRates d5)) d5 in
  let d7 := with_moleculeTorques (shift (moleculeTorques d6)) d6 in
  with_nextMoleculeTorques (shift (nextMoleculeTorques d7)) d7.

(** [removeMolecule]: remove the molecule at the index and shift the arrays
    to compensate; an out-of-range request is ignored.  The second loop, for
    the per-atom array, calls [System.arraycopy]: the module binds no
    [System], so its first round raises, before an atom is moved and before
    [numberOfAtoms] is lowered.  Only when that loop has no round to run does
    the method reach its end. *)
Definition removeMolecule (moleculeIndex : Z) (d : t) : completion unit * t :=
  if decide (Qcle (getNumberOfMolecules d) (key moleculeIndex)) then (Normal tt, d)
  else
    let d1 := foldl (fun d' i => shiftMoleculeData i d') d
                (for_range moleculeIndex (getNumberOfMolecules d - 1)%Qc 1) in
    match for_range (moleculeIndex * Zpos (atomsPerMolecule d1))
            (key (numberOfAtoms d1 - Zpos (atomsPerMolecule d1)))
            (Zpos (atomsPerMolecule d1)) with
    | _ :: _ => (Throw ReferenceError, d1)
    | [] =>
        (Normal tt, with_numberOfAtoms (numberOfAtoms d1 - Zpos (atomsPerMolecule d1)) d1)
    end.

End Methods.

End MoleculeForceAndMotionDataSet.
(** ** The thermostats, as far as the model touches them *)

Module Thermostat.

(** [IsokineticThermostat] and [AndersenThermostat] share this field, which
    [setTemperature] writes. *)
Record t : Type := make { targetTemperature : float }.

(** Which thermostat a call of [adjustTemperature] ran. *)
Inductive kind : Type := Isokinetic | Andersen.

End Thermostat.

(** ** [AbstractVerletAlgorithm]: the fields and constants of the calculator *)

Module AbstractVerletAlgorithm.

Local Open Scope float_scope.

Record t : Type := make {
  potentialEnergy : float;
  pressure : float;
  temperature : float
}.

(** [new AbstractVerletAlgorithm( model )] *)
Definition new : t := make 0 0 0.

Definition with_potentialEnergy (v : float) (c : t) : t :=
  make v (pressure c) (temperature c).

Definition with_pressure (v : float) (c : t) : t :=
  make (potentialEnergy c) v (temperature c).

Definition PRESSURE_CALC_WEIGHTING : float := 0.999.
Definition WALL_DISTANCE_THRESHOLD : float := 1.122462048309373017.
Definition SAFE_INTER_MOLECULE_DISTANCE : float := 2.0.
Definition EXPLOSION_PRESSURE : float := 1.05.

End AbstractVerletAlgorithm.

(** ** [MultipleParticleModel]: the fields and constants of the model *)

Module MultipleParticleModel.

Local Open Scope float_scope.

(** The fields that the methods embedded below read or write.  An object
    field that is [null] is [None]. *)
Record t : Type := make {
  isoKineticThermostat : option Thermostat.t;
  andersenThermostat : option Thermostat.t;
  moleculeForceAndMotionCalculator : option AbstractVerletAlgorithm.t;
  moleculeDataSet : option MoleculeForceAndMotionDataSet.t;
  isExploded : bool;
  particleDiameter : float;
  particleContainerHeight : float;
  normalizedContainerWidth : float;
  gravitationalAcceleration : float;
  heatingCoolingAmount : float;
  temperatureSetPoint : float;
  thermostatType : Z;
  heightChangeCounter : Z
}.

Definition with_isoKineticThermostat (v : option Thermostat.t) (m : t) : t :=
  make v (andersenThermostat m) (moleculeForceAndMotionCalculator m)
    (moleculeDataSet m) (isExploded m) (particleDiameter m)
    (particleContainerHeight m) (normalizedContainerWidth m)
    (gravitationalAcceleration m) (heatingCoolingAmount m)
    (temperatureSetPoint m) (thermostatType m) (heightChangeCounter m).

Definition with_andersenThermostat (v : option Thermostat.t) (m : t) : t :=
  make (isoKineticThermostat m) v (moleculeForceAndMotionCalculator m)
    (moleculeDataSet m) (isExploded m) (particleDiameter m)
    (particleContainerHeight m) (normalizedContainerWidth m)
    (gravitationalAcceleration m) (heatingCoolingAmount m)
    (temperatureSetPoint m) (thermostatType m) (heightChangeCounter m).

Definition with_moleculeDataSet (v : option MoleculeForceAndMotionDataSet.t)
    (m : t) : t :=
  make (isoKineticThermostat m) (andersenThermostat m)
    (moleculeForceAndMotionCalculator m) v (isExploded m) (particleDiameter m)
    (particleContainerHeight m) (normalizedContainerWidth m)
    (gravitationalAcceleration m) (heatingCoolingAmount m)
    (temperatureSetPoint m) (thermostatType m) (heightChangeCounter m).

Definition with_isExploded (v : bool) (m : t) : t :=
  make (isoKineticThermostat m) (andersenThermostat m)
    (moleculeForceAndMotionCalculator m) (moleculeDataSet m) v
    (particleDiameter m) (particleContainerHeight m)
    (normalizedContainerWidth m) (gravitationalAcceleration m)
    (heatingCoolingAmount m) (temperatureSetPoint m) (thermostatType m)
    (heightChangeCounter m).

Definition with_gravitationalAcceleration (v : float) (m : t) : t :=
  make (isoKineticThermostat m) (andersenThermostat m)
    (moleculeForceAndMotionCalculator m) (moleculeDataSet m) (isExploded m)
    (particleDiameter m) (particleContainerHeight m)
    (normalizedContainerWidth m) v (heatingCoolingAmount m)
    (temperatureSetPoint m) (thermostatType m) (heightChangeCounter m).

Definition with_temperatureSetPoint (v : float) (m : t) : t :=
  make (isoKineticThermostat m) (andersenThermostat m)
    (moleculeForceAndMotionCalculator m) (moleculeDataSet m) (isExploded m)
    (particleDiameter m) (particleContainerHeight m)
    (normalizedContainerWidth m) (gravitationalAcceleration m)
    (heatingCoolingAmount m) v (thermostatType m) (heightChangeCounter m).

(** The internal model temperature of the liquid state. *)
Definition LIQUID_TEMPERATURE : float := 0.34.

Definition MAX_TEMPERATURE : float := 50.0.
Definition MIN_TEMPERATURE : float := 0.0001.
Definition MAX_GRAVITATIONAL_ACCEL : float := 0.4.

(** Possible thermostat settings. *)
Definition NO_THERMOSTAT : Z := 0.
Definition ISOKINETIC_THERMOSTAT : Z := 1.
Definition ANDERSEN_THERMOSTAT : Z := 2.
Definition ADAPTIVE_THERMOSTAT : Z := 3.

Definition TEMPERATURE_CLOSENESS_RANGE : float := 0.15.
Definition PARTICLE_EDGE_PROXIMITY_RANGE : float := 2.5.

(** The derived property [normalizedContainerHeight]:
    [height / thisModel.particleDiameter]. *)
Definition normalizedContainerHeight (m : t) : float :=
  particleContainerHeight m / particleDiameter m.

(** Modelled from the spec: the accessor [getNormalizedContainerHeight()],
    which the calculator and the phase changer call and the class does not
    define; the perimeter of the pressure calculation "uses normalized
    container width + height", so it reads [normalizedContainerHeight]. *)
Definition getNormalizedContainerHeight (m : t) : float :=
  normalizedContainerHeight m.

(** Modelled from the spec: the accessor [getMoleculeDataSetRef()], which
    the calculator calls and the class does not define; the model "owns one
    MoleculeDataSet", its field [moleculeDataSet]. *)
Definition getMoleculeDataSetRef (m : t)
    : option MoleculeForceAndMotionDataSet.t :=
  moleculeDataSet m.

(** Modelled from the spec: the method [explodeContainer()], which the
    calculator calls and the class does not define; by it "the container
    transitions to exploded", that is, the flag [isExploded] is set. *)
Definition explodeContainer (m : t) : t := with_isExploded true m.

End MultipleParticleModel.
(** ** [AbstractVerletAlgorithm]: the methods

    A method works on the calculator ([this]) and on the model that the
    calculator refers to ([this.model]); both are passed and returned. *)

Module Verlet.

Import Js.
Import AbstractVerletAlgorithm.
Local Open Scope float_scope.

Local Abbreviation Model := MultipleParticleModel.t.
Local Abbreviation DataSet := MoleculeForceAndMotionDataSet.t.

Section Methods.

(** [Math.pow] of the run time *)
Variable Math_pow : float -> float -> float.
(** [Vector2.distance] of DOT *)
Variable distance : Vector2.t -> Vector2.t -> float.

(** The force of the left and of the bottom wall at distance [d]:
    [48 / d^13 - 24 / d^7]. *)
Definition wallForce (d : float) : float :=
  (48 / (Math_pow d 13)) - (24 / (Math_pow d 7)).

(** What a wall at distance [d] adds to the potential energy:
    [4 / d^12 - 4 / d^6 + 1]. *)
Definition wallPotential (d : float) : float :=
  4 / (Math_pow d 12) - 4 / (Math_pow d 6) + 1.

(** The block "Calculate the force in the X direction" of
    [calculateWallForce], with its guard on [yPos].  It returns the local
    [xPos] too, which the block may overwrite and the next block reads. *)
Definition horizontalWallForce (xPos yPos containerWidth : float)
    (resultantForce : Vector2.t) (self : t) (model : Model)
    : float * Vector2.t * t :=
  let minDistance := WALL_DISTANCE_THRESHOLD * 0.8 in
  if yPos <? MultipleParticleModel.normalizedContainerWidth model then
    if xPos <? WALL_DISTANCE_THRESHOLD then
      let xPos1 :=
        if xPos <? minDistance then
          if (xPos <? 0) && MultipleParticleModel.isExploded model
          then infinity
          else minDistance
        else xPos in
      (xPos1,
       Vector2.setX resultantForce (wallForce xPos1),
       with_potentialEnergy (potentialEnergy self + wallPotential xPos1) self)
    else if containerWidth - xPos <? WALL_DISTANCE_THRESHOLD then
      let distance0 := containerWidth - xPos in
      let '(xPos1, distance1) :=
        if distance0 <? minDistance then
          if (distance0 <? 0) && MultipleParticleModel.isExploded model
          then (infinity, distance0)
          else (xPos, minDistance)
        else (xPos, distance0) in
      (xPos1,
       Vector2.setX resultantForce
         (- (48 / (Math_pow distance1 13)) + (24 / (Math_pow distance1 7))),
       with_potentialEnergy (potentialEnergy self + wallPotential distance1) self)
    else (xPos, resultantForce, self)
  else (xPos, resultantForce, self).

(** The block "Calculate the force in the Y direction". *)
Definition verticalWallForce (xPos yPos containerWidth containerHeight : float)
    (resultantForce : Vector2.t) (self : t) (model : Model)
    : Vector2.t * t * Model :=
  let minDistance := WALL_DISTANCE_THRESHOLD * 0.8 in
  if yPos <? WALL_DISTANCE_THRESHOLD then
    let '(model1, yPos1) :=
      if yPos <? minDistance then
        ((if (yPos <? 0) && negb (MultipleParticleModel.isExploded model)
          then MultipleParticleModel.explodeContainer model
          else model),
         minDistance)
      else (model, yPos) in
    if negb (MultipleParticleModel.isExploded model1)
       || ((0 <? xPos) && (xPos <? containerWidth))
    then
      (Vector2.setY resultantForce (wallForce yPos1),
       with_potentialEnergy (potentialEnergy self + wallPotential yPos1) self,
       model1)
    else (resultantForce, self, model1)
  else if (containerHeight - yPos <? WALL_DISTANCE_THRESHOLD)
          && negb (MultipleParticleModel.isExploded model)
  then
    let distance0 := containerHeight - yPos in
    let distance1 := if distance0 <? minDistance then minDistance else distance0 in
    (Vector2.setY resultantForce
       ((-48) / (Math_pow distance1 13) + (24 / (Math_pow distance1 7))),
     with_potentialEnergy (potentialEnergy self + wallPotential distance1) self,
     model)
  else (resultantForce, self, model).

(** [calculateWallForce]: the force that the walls of the container exert on
    a particle at [position], returned in [resultantForce].  Either argument
    may be [null], and then nothing is done. *)
Definition calculateWallForce (position : option Vector2.t)
    (containerWidth containerHeight : float) (resultantForce : option Vector2.t)
    (self : t) (model : Model) : option Vector2.t * t * Model :=
  match resultantForce, position with
  | Some force, Some pos =>
      let xPos := Vector2.x pos in
      let yPos := Vector2.y pos in
      let '(xPos1, force1, self1) :=
        horizontalWallForce xPos yPos containerWidth force self model in
      let '(force2, self2, model2) :=
        verticalWallForce xPos1 yPos containerWidth containerHeight force1 self1 model in
      (Some force2, self2, model2)
  | _, _ => (resultantForce, self, model)
  end.

(** The inner loop of [updateMoleculeSafety]: is molecule [i] within the safe
    distance of one of the safe molecules? *)
Fixpoint tooCloseToSafeMolecule (positions : array Vector2.t) (i : Z)
    (indices : list Z) : completion bool :=
  match indices with
  | [] => Normal false
  | j :: rest =>
      match get positions (key i), get positions (key j) with
      | Some pi, Some pj =>
          if distance pi pj <? SAFE_INTER_MOLECULE_DISTANCE
          then Normal true
          else tooCloseToSafeMolecule positions i rest
      | _, _ => Throw TypeError
      end
  end.

(** The swap of molecule [i] with the first unsafe one: the atoms first, then
    position, velocity, force, rotation angle and rotation rate. *)
Definition swapWithFirstUnsafe (numberOfSafeMolecules i : Z) (d : DataSet) : DataSet :=
  let atomsPerMolecule := Zpos (MoleculeForceAndMotionDataSet.getAtomsPerMolecule d) in
  let atoms :=
    foldl (fun a j =>
             swap a (key ((numberOfSafeMolecules * atomsPerMolecule) + j))
                    (key ((atomsPerMolecule * i) + j)))
          (MoleculeForceAndMotionDataSet.atomPositions d)
          (for_range 0 (key atomsPerMolecule) 1) in
  let firstUnsafeMoleculeIndex := numberOfSafeMolecules in
  let d1 := MoleculeForceAndMotionDataSet.with_atomPositions atoms d in
  let d2 := MoleculeForceAndMotionDataSet.with_moleculeCenterOfMassPositions
              (swap (MoleculeForceAndMotionDataSet.moleculeCenterOfMassPositions d1)
                 (key firstUnsafeMoleculeIndex) (key i)) d1 in
  let d3 := MoleculeForceAndMotionDataSet.with_moleculeVelocities
              (swap (MoleculeForceAndMotionDataSet.moleculeVelocities d2)
                 (key firstUnsafeMoleculeIndex) (key i)) d2 in
  let d4 := MoleculeForceAndMotionDataSet.with_moleculeForces
              (swap (MoleculeForceAndMotionDataSet.moleculeForces d3)
                 (key firstUnsafeMoleculeIndex) (key i)) d3 in
  let d5 := MoleculeForceAndMotionDataSet.with_moleculeRotationAngles
              (swap (MoleculeForceAndMotionDataSet.moleculeRotationAngles d4)
                 (key firstUnsafeMoleculeIndex) (key i)) d4 in
  MoleculeForceAndMotionDataSet.with_moleculeRotationRates
    (swap (MoleculeForceAndMotionDataSet.moleculeRotationRates d5)
       (key firstUnsafeMoleculeIndex) (key i)) d5.

(** The outer loop: the local [numberOfSafeMolecules] and the data set go
    from round to round. *)
Fixpoint promoteSafeMolecules (indices : list Z) (numberOfSafeMolecules : Z)
    (d : DataSet) : completion unit * DataSet :=
  match indices with
  | [] => (Normal tt, d)
  | i :: rest =>
      match tooCloseToSafeMolecule
              (MoleculeForceAndMotionDataSet.moleculeCenterOfMassPositions d) i
              (for_range 0 (key numberOfSafeMolecules) 1) with
      | Throw e => (Throw e, d)
      | Normal true => promoteSafeMolecules rest numberOfSafeMolecules d
      | Normal false =>
          let d1 :=
            if decide (i <> numberOfSafeMolecules)
            then swapWithFirstUnsafe numberOfSafeMolecules i d
            else d in
          let numberOfSafeMolecules1 := (numberOfSafeMolecules + 1)%Z in
          promoteSafeMolecules rest numberOfSafeMolecules1
            (MoleculeForceAndMotionDataSet.with_numberOfSafeMolecules
               numberOfSafeMolecules1 d1)
      end
  end.

(** The body of [updateMoleculeSafety] on the data set of the model.  The
    bound of the outer loop is the property [numberOfMolecules] of the data
    set. *)
Definition updateSafetyOfDataSet (d : DataSet) : completion unit * DataSet :=
  let numberOfSafeMolecules := MoleculeForceAndMotionDataSet.numberOfSafeMolecules d in
  let numberOfMolecules := MoleculeForceAndMotionDataSet.numberOfMolecules d in
  if strict_eq numberOfMolecules (key numberOfSafeMolecules) then (Normal tt, d)
  else
    promoteSafeMolecules (for_range_to numberOfSafeMolecules numberOfMolecules 1)
      numberOfSafeMolecules d.

(** [updateMoleculeSafety]: promote the molecules that were designated
    unsafe and are now far enough from the safe ones. *)
Definition updateMoleculeSafety (self : t) (model : Model)
    : completion unit * t * Model :=
  match MultipleParticleModel.getMoleculeDataSetRef model with
  | None => (Throw TypeError, self, model)
  | Some moleculeDataSet =>
      let '(c, d) := updateSafetyOfDataSet moleculeDataSet in
      (c, self, MultipleParticleModel.with_moleculeDataSet (Some d) model)
  end.

(** [updatePressure]: the pressure is a running average of the force on the
    walls; too high a pressure blows the container up. *)
Definition updatePressure (pressureZoneWallForce : float) (self : t) (model : Model)
    : t * Model :=
  if MultipleParticleModel.isExploded model then
    (with_pressure 0 self, model)
  else
    let self1 :=
      with_pressure
        ((1 - PRESSURE_CALC_WEIGHTING)
         * (pressureZoneWallForce
            / (MultipleParticleModel.normalizedContainerWidth model
               + MultipleParticleModel.getNormalizedContainerHeight model))
         + PRESSURE_CALC_WEIGHTING * pressure self) self in
    if (EXPLOSION_PRESSURE <? pressure self1)
       && negb (MultipleParticleModel.isExploded model)
    then (self1, MultipleParticleModel.explodeContainer model)
    else (self1, model).

End Methods.

End Verlet.
(** ** [MultipleParticleModel]: the methods *)

Module Model.

Import Js.
Import MultipleParticleModel.
Local Open Scope float_scope.

Local Abbreviation DataSet := MoleculeForceAndMotionDataSet.t.

Section Methods.

(** [adjustTemperature()] of [IsokineticThermostat], which is not among the
    sources: what the thermostat does to the data set it was built on. *)
Variable isokineticAdjustTemperature : Thermostat.t -> DataSet -> DataSet.
(** [adjustTemperature()] of [AndersenThermostat], likewise. *)
Variable andersenAdjustTemperature : Thermostat.t -> DataSet -> DataSet.

(** [setTemperature] *)
Definition setTemperature (newTemperature : float) (m : t) : t :=
  let m1 :=
    if MAX_TEMPERATURE <? newTemperature then
      with_temperatureSetPoint MAX_TEMPERATURE m
    else if newTemperature <? MIN_TEMPERATURE then
      with_temperatureSetPoint MIN_TEMPERATURE m
    else
      with_temperatureSetPoint newTemperature m in
  let m2 :=
    match isoKineticThermostat m1 with
    | Some _ => with_isoKineticThermostat (Some (Thermostat.make newTemperature)) m1
    | None => m1
    end in
  match andersenThermostat m2 with
  | Some _ => with_andersenThermostat (Some (Thermostat.make newTemperature)) m2
  | None => m2
  end.

(** [setGravitationalAcceleration]: the assignment that follows each [throw]
    is never reached. *)
Definition setGravitationalAcceleration (acceleration : float) (m : t)
    : completion unit * t :=
  if MAX_GRAVITATIONAL_ACCEL <? acceleration then
    (Throw (Error "WARNING: Attempt to set out-of-range value for gravitational acceleration."), m)
  else if acceleration <? 0 then
    (Throw (Error "WARNING: Attempt to set out-of-range value for gravitational acceleration."), m)
  else
    (Normal tt, with_gravitationalAcceleration acceleration m).

(** [injectMolecule]: "Inject a new molecule of the current type into the
    model."  The body is empty. *)
Definition injectMolecule (m : t) : t := m.

(** The loop of [particlesNearTop]. *)
Fixpoint anyAboveThreshold (moleculesPositions : array Vector2.t)
    (threshold : float) (indices : list Z) : completion bool :=
  match indices with
  | [] => Normal false
  | i :: rest =>
      match get moleculesPositions (key i) with
      | None => Throw TypeError
      | Some p =>
          if threshold <? Vector2.y p
          then Normal true
          else anyAboveThreshold moleculesPositions threshold rest
      end
  end.

(** [particlesNearTop]: are there particles close to the top of the container? *)
Definition particlesNearTop (m : t) : completion bool :=
  match moleculeDataSet m with
  | None => Throw TypeError
  | Some d =>
      let moleculesPositions :=
        MoleculeForceAndMotionDataSet.moleculeCenterOfMassPositions d in
      let threshold := normalizedContainerHeight m - PARTICLE_EDGE_PROXIMITY_RANGE in
      anyAboveThreshold moleculesPositions threshold
        (for_range_to 0 (MoleculeForceAndMotionDataSet.numberOfMolecules d) 1)
  end.

(** [this.isoKineticThermostat.adjustTemperature()] *)
Definition runIsokinetic (m : t) : completion (list Thermostat.kind) * t :=
  match isoKineticThermostat m with
  | None => (Throw TypeError, m)
  | Some thermostat =>
      (Normal [Thermostat.Isokinetic],
       with_moleculeDataSet
         (isokineticAdjustTemperature thermostat <$> moleculeDataSet m) m)
  end.

(** [this.andersenThermostat.adjustTemperature()] *)
Definition runAndersen (m : t) : completion (list Thermostat.kind) * t :=
  match andersenThermostat m with
  | None => (Throw TypeError, m)
  | Some thermostat =>
      (Normal [Thermostat.Andersen],
       with_moleculeDataSet
         (andersenAdjustTemperature thermostat <$> moleculeDataSet m) m)
  end.

(** [runThermostat]: run the appropriate thermostat for the settings and the
    state of the simulation.  The value is the list of the thermostats whose
    [adjustTemperature] was called, in the order of the calls.

    The first test is [this.heightChangeCounter !== 0 && particlesNearTop()],
    with [particlesNearTop] called without a receiver: the module binds no
    such name, so the test raises whenever its left side holds, and the
    branch behind it, which would set the temperature from the kinetic
    energy, is never entered. *)
Definition runThermostat (m : t) : completion (list Thermostat.kind) * t :=
  if isExploded m then (Normal [], m)
  else
    match moleculeForceAndMotionCalculator m with
    | None => (Throw TypeError, m)
    | Some calculator =>
        let calculatedTemperature := AbstractVerletAlgorithm.temperature calculator in
        let temperatureIsChanging :=
          Num.strict_neq (heatingCoolingAmount m) 0
          || (temperatureSetPoint m + TEMPERATURE_CLOSENESS_RANGE <? calculatedTemperature)
          || (calculatedTemperature <? temperatureSetPoint m - TEMPERATURE_CLOSENESS_RANGE) in
        if decide (heightChangeCounter m <> 0%Z) then (Throw ReferenceError, m)
        else if (thermostatType m =? ISOKINETIC_THERMOSTAT)%Z
                || ((thermostatType m =? ADAPTIVE_THERMOSTAT)%Z
                    && (temperatureIsChanging
                        || (LIQUID_TEMPERATURE <? temperatureSetPoint m)))
        then runIsokinetic m
        else if (thermostatType m =? ANDERSEN_THERMOSTAT)%Z
                || ((thermostatType m =? ADAPTIVE_THERMOSTAT)%Z
                    && negb temperatureIsChanging)
        then runAndersen m
        else (Normal [], m)
    end.

End Methods.

(** The thermostats that a call of [runThermostat] ran; a raise comes before
    any [adjustTemperature] is entered. *)
Definition thermostatsRun (c : completion (list Thermostat.kind))
    : list Thermostat.kind :=
  match c with
  | Normal runs => runs
  | Throw _ => []
  end.

End Model.
(** ** The invariant of the data set, and the states a run reaches *)

Module DataSetInvariant.

Import Js MoleculeForceAndMotionDataSet.
Local Open Scope Z_scope.




Section Reachable.

Variable MAX_NUM_ATOMS : Z.
Variable DIATOMIC_PARTICLE_DISTANCE : float.
Variable Math_pow : float -> float -> float.
Variable distance : Vector2.t -> Vector2.t -> float.


End Reachable.

End DataSetInvariant.

(** ** Sample values, for the instances below *)

Module Sample.

Local Open Scope float_scope.

Fixpoint powNat (b : float) (n : nat) : float :=
  match n with
  | O => 1
  | S k => b * powNat b k
  end.

(** A [Math.pow] for whole exponents from 0 on: repeated multiplication. *)
Definition pow (b e : float) : float :=
  match Prim2SF e with
  | S754_finite false m ex => powNat b (Z.to_nat (Z.shiftl (Zpos m) ex))
  | _ => 1
  end.

(** DOT's [distance]: the root of the sum of the squared differences. *)
Definition distance (p q : Vector2.t) : float :=
  let dx := Vector2.x p - Vector2.x q in
  let dy := Vector2.y p - Vector2.y q in
  sqrt (dx * dx + dy * dy).

(** The empty monatomic data set, as the constructor returns it. *)
Definition emptyMonatomicDataSet : MoleculeForceAndMotionDataSet.t :=
  MoleculeForceAndMotionDataSet.empty 1%positive (Some 1) None.

(** The empty data set for molecules of two atoms, one unit apart. *)
Definition emptyDiatomicDataSet : MoleculeForceAndMotionDataSet.t :=
  MoleculeForceAndMotionDataSet.empty 2%positive (Some 2) (Some (pow 1 2 / 2)).

(** The data set after one atom was added, for a capacity of [capacity] atoms. *)
Definition oneAtomDataSet (capacity : Z) : MoleculeForceAndMotionDataSet.t :=
  (MoleculeForceAndMotionDataSet.addMolecule capacity
     [Vector2.make 1 2] (Vector2.make 1 2) (Vector2.make 3 4) 0
     emptyMonatomicDataSet).2.

(** A model that has not exploded: a container 20 particle diameters wide
    and 30 high, the adaptive thermostat, no heating or cooling. *)
Definition intactModel : MultipleParticleModel.t :=
  {| MultipleParticleModel.isoKineticThermostat := Some (Thermostat.make 0.15);
     MultipleParticleModel.andersenThermostat := Some (Thermostat.make 0.15);
     MultipleParticleModel.moleculeForceAndMotionCalculator :=
       Some AbstractVerletAlgorithm.new;
     MultipleParticleModel.moleculeDataSet := Some (oneAtomDataSet 500);
     MultipleParticleModel.isExploded := false;
     MultipleParticleModel.particleDiameter := 1;
     MultipleParticleModel.particleContainerHeight := 30;
     MultipleParticleModel.normalizedContainerWidth := 20;
     MultipleParticleModel.gravitationalAcceleration := 0.045;
     MultipleParticleModel.heatingCoolingAmount := 0;
     MultipleParticleModel.temperatureSetPoint := 0.15;
     MultipleParticleModel.thermostatType := MultipleParticleModel.ADAPTIVE_THERMOSTAT;
     MultipleParticleModel.heightChangeCounter := 0 |}.

(** The same model after the container has exploded. *)
Definition explodedModel : MultipleParticleModel.t :=
  MultipleParticleModel.explodeContainer intactModel.

End Sample.

(** ** Further methods of [MultipleParticleModel] *)

Module ModelMore.

Import Js.
Import MultipleParticleModel.
Local Open Scope float_scope.

Definition with_thermostatType (v : Z) (m : t) : t :=
  make (isoKineticThermostat m) (andersenThermostat m)
    (moleculeForceAndMotionCalculator m) (moleculeDataSet m) (isExploded m)
    (particleDiameter m) (particleContainerHeight m)
    (normalizedContainerWidth m) (gravitationalAcceleration m)
    (heatingCoolingAmount m) (temperatureSetPoint m) v (heightChangeCounter m).

(** The internal model temperature values for the various states. *)
Definition SOLID_TEMPERATURE : float := 0.15.
Definition GAS_TEMPERATURE : float := 1.0.

(** Constants used for setting the phase directly. *)
Definition PHASE_SOLID : Z := 1.
Definition PHASE_LIQUID : Z := 2.
Definition PHASE_GAS : Z := 3.

Section ThermostatType.

(** The string that [+] appends for a [Number], given by the language. *)
Variable numberToString : Z -> string.

(** [setThermostatType] *)
Definition setThermostatType (type : Z) (m : t) : completion unit * t :=
  if (type =? NO_THERMOSTAT)%Z
     || (type =? ISOKINETIC_THERMOSTAT)%Z
     || (type =? ANDERSEN_THERMOSTAT)%Z
     || (type =? ADAPTIVE_THERMOSTAT)%Z
  then (Normal tt, with_thermostatType type m)
  else (Throw (Error ("Thermostat type setting out of range: " +:+ numberToString type)), m).

End ThermostatType.

(** [mapTemperatureToPhase]: a phase value based on the current temperature. *)
Definition mapTemperatureToPhase (m : t) : Z :=
  if temperatureSetPoint m
     <? SOLID_TEMPERATURE + ((LIQUID_TEMPERATURE - SOLID_TEMPERATURE) / 2)
  then PHASE_SOLID
  else if temperatureSetPoint m
          <? LIQUID_TEMPERATURE + ((GAS_TEMPERATURE - LIQUID_TEMPERATURE) / 2)
  then PHASE_LIQUID
  else PHASE_GAS.

(** [getModelPressure]: the pressure that the calculator keeps. *)
Definition getModelPressure (m : t) : completion float :=
  match moleculeForceAndMotionCalculator m with
  | None => Throw TypeError
  | Some calculator => Normal (AbstractVerletAlgorithm.pressure calculator)
  end.

(** The fields that [convertInternalTemperatureToKelvin] reads beside the
    set point: the size of [particles], [currentMolecule] and
    [minModelTemperature]. *)
Record species : Type := makeSpecies {
  numberOfParticles : Z;
  currentMolecule : Z;
  minModelTemperature : float
}.

Definition TRIPLE_POINT_MONATOMIC_MODEL_TEMPERATURE : float := 0.26.
Definition CRITICAL_POINT_MONATOMIC_MODEL_TEMPERATURE : float := 0.8.
Definition NEON_TRIPLE_POINT_IN_KELVIN : float := 23.
Definition NEON_CRITICAL_POINT_IN_KELVIN : float := 44.
Definition ARGON_TRIPLE_POINT_IN_KELVIN : float := 75.
Definition ARGON_CRITICAL_POINT_IN_KELVIN : float := 151.
Definition O2_TRIPLE_POINT_IN_KELVIN : float := 54.
Definition O2_CRITICAL_POINT_IN_KELVIN : float := 155.
Definition WATER_TRIPLE_POINT_IN_KELVIN : float := 273.
Definition WATER_CRITICAL_POINT_IN_KELVIN : float := 647.
Definition ADJUSTABLE_ATOM_TRIPLE_POINT_IN_KELVIN : float := 75.
Definition ADJUSTABLE_ATOM_CRITICAL_POINT_IN_KELVIN : float := 140.

Section Species.

(** The molecule identifiers of [StatesOfMatterConstants]. *)
Variable NEON ARGON USER_DEFINED_MOLECULE WATER DIATOMIC_OXYGEN : Z.

(** The [switch] of [convertInternalTemperatureToKelvin]: the triple point
    and the critical point of the current molecule, 0 and 0 by default. *)
Definition triplePointAndCriticalPoint (molecule : Z) : float * float :=
  if (molecule =? NEON)%Z
  then (NEON_TRIPLE_POINT_IN_KELVIN, NEON_CRITICAL_POINT_IN_KELVIN)
  else if (molecule =? ARGON)%Z
  then (ARGON_TRIPLE_POINT_IN_KELVIN, ARGON_CRITICAL_POINT_IN_KELVIN)
  else if (molecule =? USER_DEFINED_MOLECULE)%Z
  then (ADJUSTABLE_ATOM_TRIPLE_POINT_IN_KELVIN, ADJUSTABLE_ATOM_CRITICAL_POINT_IN_KELVIN)
  else if (molecule =? WATER)%Z
  then (WATER_TRIPLE_POINT_IN_KELVIN, WATER_CRITICAL_POINT_IN_KELVIN)
  else if (molecule =? DIATOMIC_OXYGEN)%Z
  then (O2_TRIPLE_POINT_IN_KELVIN, O2_CRITICAL_POINT_IN_KELVIN)
  else (0, 0).

(** [convertInternalTemperatureToKelvin]: the internal temperature in
    Kelvin, for the molecule selected. *)
Definition convertInternalTemperatureToKelvin (s : species) (m : t) : float :=
  if (numberOfParticles s =? 0)%Z then 0
  else
    let '(triplePoint, criticalPoint) :=
      triplePointAndCriticalPoint (currentMolecule s) in
    if temperatureSetPoint m <=? minModelTemperature s then 0
    else if temperatureSetPoint m <? TRIPLE_POINT_MONATOMIC_MODEL_TEMPERATURE then
      let temperatureInKelvin :=
        temperatureSetPoint m * triplePoint / TRIPLE_POINT_MONATOMIC_MODEL_TEMPERATURE in
      if temperatureInKelvin <? 0.5 then 0.5 else temperatureInKelvin
    else if temperatureSetPoint m <? CRITICAL_POINT_MONATOMIC_MODEL_TEMPERATURE then
      let slope :=
        (criticalPoint - triplePoint)
        / (CRITICAL_POINT_MONATOMIC_MODEL_TEMPERATURE
           - TRIPLE_POINT_MONATOMIC_MODEL_TEMPERATURE) in
      let offset := triplePoint - (slope * TRIPLE_POINT_MONATOMIC_MODEL_TEMPERATURE) in
      temperatureSetPoint m * slope + offset
    else
      temperatureSetPoint m * criticalPoint / CRITICAL_POINT_MONATOMIC_MODEL_TEMPERATURE.

(** [getTemperatureInKelvin] *)
Definition getTemperatureInKelvin (s : species) (m : t) : float :=
  convertInternalTemperatureToKelvin s m.

End Species.

End ModelMore.

(** ** Forms in which the properties below speak of the data set *)

Module DataSetViews.

Import Js MoleculeForceAndMotionDataSet.
Local Open Scope Z_scope.

(** What [addMolecule] is given for one molecule. *)
Record molecule : Type := makeMolecule {
  atoms : list Vector2.t;
  centerOfMass : Vector2.t;
  velocity : Vector2.t;
  rotationRate : float
}.

(** A loop of calls of [addMolecule] whose results are not looked at, as the
    loops of the initializers are. *)
Definition addMolecules (MAX_NUM_ATOMS : Z) (molecules : list molecule) (d : t) : t :=
  foldl (fun d' m =>
           (addMolecule MAX_NUM_ATOMS (atoms m) (centerOfMass m) (velocity m)
              (rotationRate m) d').2)
        d molecules.

(** The cells of the per-molecule arrays at one key. *)
Definition moleculeRecord (d : t) (k : Qc)
    : option Vector2.t * option Vector2.t * option Vector2.t * option Vector2.t
      * option float * option float * option float * option float :=
  (get (moleculeCenterOfMassPositions d) k, get (moleculeVelocities d) k,
   get (moleculeForces d) k, get (nextMoleculeForces d) k,
   get (moleculeRotationAngles d) k, get (moleculeRotationRates d) k,
   get (moleculeTorques d) k, get (nextMoleculeTorques d) k).

(** A run of [a[i] = a[i + 1]], for the indices of a list in turn: what the
    first loop of [removeMolecule] does to each per-molecule array. *)
Definition shiftCells {A} (l : list Z) (a : array A) : array A :=
  foldl (fun a' i => set a' (key i) (get a' (key (i + 1)))) a l.

(** Every velocity turned by 180 degrees. *)
Definition reverseVelocities (d : t) : t :=
  let reversed : gmap Qc Vector2.t :=
    (fun v => Vector2.make (- Vector2.x v) (- Vector2.y v))%float
      <$> (moleculeVelocities d : gmap Qc Vector2.t) in
  with_moleculeVelocities reversed d.

(** Every molecule below [numberOfMolecules] has a cell in the array. *)
Definition populated {A} (a : array A) (d : t) : Prop :=
  forall i : Z, 0 <= i -> Qclt (key i) (getNumberOfMolecules d) -> is_Some (get a (key i)).

End DataSetViews.

(** ** Runs of calls of the calculator *)

Module CalculatorRun.

Import Js.

(** A call of one of the three methods of [AbstractVerletAlgorithm]. *)
Inductive call : Type :=
| CalculateWallForce (position : option Vector2.t)
    (containerWidth containerHeight : float) (resultantForce : option Vector2.t)
| UpdateMoleculeSafety
| UpdatePressure (pressureZoneWallForce : float).

Section Run.

Variable Math_pow : float -> float -> float.
Variable distance : Vector2.t -> Vector2.t -> float.

(** One call, on the calculator and the model; what it returns or raises
    is let go. *)
Definition step (state : AbstractVerletAlgorithm.t * MultipleParticleModel.t)
    (c : call) : AbstractVerletAlgorithm.t * MultipleParticleModel.t :=
  match c with
  | CalculateWallForce position containerWidth containerHeight resultantForce =>
      let result :=
        Verlet.calculateWallForce Math_pow position containerWidth containerHeight
          resultantForce state.1 state.2 in
      (result.1.2, result.2)
  | UpdateMoleculeSafety =>
      let result := Verlet.updateMoleculeSafety distance state.1 state.2 in
      (result.1.2, result.2)
  | UpdatePressure pressureZoneWallForce =>
      Verlet.updatePressure pressureZoneWallForce state.1 state.2
  end.

(** The calls of a list, one after the other. *)
Definition run (calls : list call)
    (state : AbstractVerletAlgorithm.t * MultipleParticleModel.t)
    : AbstractVerletAlgorithm.t * MultipleParticleModel.t :=
  foldl step state calls.

End Run.

End CalculatorRun.

(** ** More sample values *)

Module SampleMore.

Local Open Scope float_scope.

(** A molecule of two atoms, at rest. *)
Definition diatomicMolecule : DataSetViews.molecule :=
  DataSetViews.makeMolecule
    [Vector2.make 0 0; Vector2.make 1 0]
    (Vector2.make 0.5 0) (Vector2.make 0 0) 0.

(** A single atom at a position, at rest. *)
Definition atomAt (x y : float) : DataSetViews.molecule :=
  DataSetViews.makeMolecule [Vector2.make x y] (Vector2.make x y) Vector2.zero 0.

(** Three atoms on a line: the second is one diameter from the first, the
    third is five. *)
Definition threeAtomDataSet : MoleculeForceAndMotionDataSet.t :=
  DataSetViews.addMolecules 500 [atomAt 5 5; atomAt 6 5; atomAt 10 5]
    Sample.emptyMonatomicDataSet.

(** The model of the samples while the height of its container changes. *)
Definition resizingModel : MultipleParticleModel.t :=
  {| MultipleParticleModel.isoKineticThermostat := Some (Thermostat.make 0.15);
     MultipleParticleModel.andersenThermostat := Some (Thermostat.make 0.15);
     MultipleParticleModel.moleculeForceAndMotionCalculator :=
       Some AbstractVerletAlgorithm.new;
     MultipleParticleModel.moleculeDataSet := Some (Sample.oneAtomDataSet 500);
     MultipleParticleModel.isExploded := false;
     MultipleParticleModel.particleDiameter := 1;
     MultipleParticleModel.particleContainerHeight := 30;
     MultipleParticleModel.normalizedContainerWidth := 20;
     MultipleParticleModel.gravitationalAcceleration := 0.045;
     MultipleParticleModel.heatingCoolingAmount := 0;
     MultipleParticleModel.temperatureSetPoint := 0.15;
     MultipleParticleModel.thermostatType := MultipleParticleModel.ADAPTIVE_THERMOSTAT;
     MultipleParticleModel.heightChangeCounter := 25 |}.

(** A model whose only atom is half a diameter below the top of the container. *)
Definition nearTopModel : MultipleParticleModel.t :=
  MultipleParticleModel.with_moleculeDataSet
    (Some (DataSetViews.addMolecules 500 [atomAt 10 29.5]
             Sample.emptyMonatomicDataSet))
    Sample.intactModel.

End SampleMore.
(** ** Order facts on binary64 numbers *)

Section FloatOrder.

Local Open Scope float_scope.

Lemma SFcompare_antisym (a b : spec_float) :
  SFcompare b a = option_map CompOpp (SFcompare a b).
Proof.
  destruct a as [sa|sa| |sa ma ea], b as [sb|sb| |sb mb eb]; simpl;
    try reflexivity;
    try (destruct sa; reflexivity);
    try (destruct sb; reflexivity);
    try (destruct sa, sb; reflexivity).
  destruct sa, sb; simpl; try reflexivity; f_equal;
    rewrite (Z.compare_antisym ea eb);
    destruct (ea ?= eb)%Z; simpl; try reflexivity.
  all: pose proof (Pos.compare_cont_antisym ma mb Eq) as H; simpl in H;
    rewrite <- H; reflexivity.
Qed.

Lemma leb_not_ltb (a b : float) : (a <=? b) = true -> (b <? a) = false.
Proof.
  rewrite FloatAxioms.leb_spec, FloatAxioms.ltb_spec. unfold SFleb, SFltb.
  rewrite (SFcompare_antisym (Prim2SF a) (Prim2SF b)).
  destruct (SFcompare (Prim2SF a) (Prim2SF b)) as [[]|]; simpl; congruence.
Qed.

Lemma ltb_not_leb (a b : float) : (a <? b) = true -> (b <=? a) = false.
Proof.
  rewrite FloatAxioms.leb_spec, FloatAxioms.ltb_spec. unfold SFleb, SFltb.
  rewrite (SFcompare_antisym (Prim2SF a) (Prim2SF b)).
  destruct (SFcompare (Prim2SF a) (Prim2SF b)) as [[]|]; simpl; congruence.
Qed.

Lemma ltb_irrefl (a : float) : (a <? a) = false.
Proof.
  destruct (a <? a) eqn:E; [|reflexivity].
  pose proof (ltb_not_leb _ _ E) as H.
  rewrite FloatAxioms.leb_spec in H. rewrite FloatAxioms.ltb_spec in E.
  unfold SFleb, SFltb in *.
  destruct (SFcompare (Prim2SF a) (Prim2SF a)) as [[]|]; congruence.
Qed.

Lemma is_nan_false_sf (a : float) :
  is_nan a = false -> Prim2SF a <> S754_nan.
Proof.
  unfold is_nan. rewrite FloatAxioms.eqb_spec. unfold SFeqb.
  intros H E. rewrite E in H. discriminate.
Qed.

Lemma SFcompare_None (a b : spec_float) :
  SFcompare a b = None -> a = S754_nan \/ b = S754_nan.
Proof.
  destruct a, b; simpl; intros H; try discriminate H; auto.
Qed.

(** Two numbers that are not [NaN] are comparable. *)
Lemma not_ltb_leb (a b : float) :
  is_nan a = false -> is_nan b = false -> (b <? a) = false -> (a <=? b) = true.
Proof.
  intros Ha Hb. apply is_nan_false_sf in Ha. apply is_nan_false_sf in Hb.
  rewrite FloatAxioms.leb_spec, FloatAxioms.ltb_spec. unfold SFleb, SFltb.
  rewrite (SFcompare_antisym (Prim2SF a) (Prim2SF b)).
  destruct (SFcompare (Prim2SF a) (Prim2SF b)) as [[]|] eqn:E;
    simpl; try congruence.
  destruct (SFcompare_None _ _ E); contradiction.
Qed.

Lemma ltb_zero_negative (x : float) :
  (x <? 0) = true -> Num.sf_negative (Prim2SF x).
Proof.
  rewrite FloatAxioms.ltb_spec. unfold SFltb. change (Prim2SF 0) with (S754_zero false).
  destruct (Prim2SF x) as [s|s| |s m e]; simpl; try congruence;
    destruct s; simpl; congruence || trivial.
Qed.

Lemma zero_ltb_positive (c : float) :
  (0 <? c) = true -> Num.sf_positive (Prim2SF c).
Proof.
  rewrite FloatAxioms.ltb_spec. unfold SFltb. change (Prim2SF 0) with (S754_zero false).
  destruct (Prim2SF c) as [s|s| |s m e]; simpl; try congruence;
    destruct s; simpl; congruence || trivial.
Qed.

(** A number below zero is below every number above zero. *)
Lemma ltb_through_zero (x c : float) :
  (x <? 0) = true -> (0 <? c) = true -> (x <? c) = true.
Proof.
  intros Hx Hc.
  apply ltb_zero_negative in Hx. apply zero_ltb_positive in Hc.
  rewrite FloatAxioms.ltb_spec. unfold SFltb.
  destruct (Prim2SF x) as [s|s| |s m e]; simpl in Hx; try contradiction;
    destruct s; try contradiction;
    destruct (Prim2SF c) as [s'|s'| |s' m' e']; simpl in Hc; try contradiction;
    destruct s'; try contradiction; reflexivity.
Qed.

End FloatOrder.
(** * Properties *)

(** ** Counted loops and array cells *)

Section Loops.

Import Js.
Local Open Scope Z_scope.

Lemma Qceiling_key (b : Z) : Qceiling (this (key b)) = b.
Proof.
  unfold key, Qc_of_Z. simpl. apply Qceiling_Z.
Qed.

Lemma counter_values_unit (fuel : nat) (a b : Z) :
  Z.to_nat (b - a) = fuel -> counter_values fuel a (key b) 1 = seqZ a (b - a).
Proof.
  revert a. induction fuel as [|fuel IH]; intros a Hfuel; simpl.
  - rewrite seqZ_nil; [reflexivity | lia].
  - destruct (decide (key a < key b)%Qc) as [_|Hge].
    + rewrite (seqZ_cons a (b - a)) by lia.
      rewrite (IH (a + 1)) by lia.
      replace (Z.succ a) with (a + 1) by lia.
      replace (Z.pred (b - a)) with (b - (a + 1)) by lia.
      reflexivity.
    + exfalso. apply Hge. apply (proj1 (Z2Qc_inj_lt a b)). lia.
Qed.

(** A loop that counts by one up to an integer bound. *)
Lemma for_range_unit (a b : Z) : for_range a (key b) 1 = seqZ a (b - a).
Proof.
  unfold for_range. rewrite Qceiling_key. apply counter_values_unit. reflexivity.
Qed.

(** The rounds granted are enough: with a step of at least one, the loop
    ends because its test fails. *)
Lemma counter_values_complete (fuel : nat) (i : Z) (bound : Qc) (step : Z) :
  1 <= step ->
  Qceiling (this bound) - i <= Z.of_nat fuel ->
  ~ (key (i + step * Z.of_nat (length (counter_values fuel i bound step))) < bound)%Qc.
Proof.
  intros Hstep. revert i. induction fuel as [|fuel IH]; intros i Hfuel; simpl.
  - rewrite Z.mul_0_r, Z.add_0_r. intros Hlt.
    unfold Qclt, key, Qc_of_Z in Hlt. simpl in Hlt.
    pose proof (Qle_ceiling (this bound)) as Hceil.
    assert (Hle : (inject_Z (Qceiling (this bound)) <= inject_Z i)%Q).
    { rewrite <- Zle_Qle. lia. }
    apply (Qlt_irrefl (inject_Z i)).
    apply (Qlt_le_trans _ (this bound)); [exact Hlt|].
    apply (Qle_trans _ (inject_Z (Qceiling (this bound)))); assumption.
  - destruct (decide (key i < bound)%Qc) as [_|Hge]; simpl.
    + specialize (IH (i + step)).
      set (n := length (counter_values fuel (i + step) bound step)) in *.
      replace (i + step * Z.of_nat (S n)) with ((i + step) + step * Z.of_nat n) by lia.
      apply IH. lia.
    + rewrite Z.mul_0_r, Z.add_0_r. exact Hge.
Qed.

Lemma for_range_complete (start : Z) (bound : Qc) (step : Z) :
  1 <= step ->
  ~ (key (start + step * Z.of_nat (length (for_range start bound step))) < bound)%Qc.
Proof.
  intros Hstep. unfold for_range. apply counter_values_complete; [exact Hstep | lia].
Qed.

Lemma get_set_eq {A} (a : array A) (k : Qc) (v : option A) :
  get (set a k v) k = v.
Proof. unfold get, set, array in *. apply lookup_partial_alter_eq. Qed.

Lemma get_set_ne {A} (a : array A) (k k' : Qc) (v : option A) :
  k <> k' -> get (set a k v) k' = get a k'.
Proof. unfold get, set, array in *. intros H. apply lookup_partial_alter_ne. exact H. Qed.

Lemma key_quotient (p : positive) (n : Z) :
  (key (Zpos p * n) / key (Zpos p))%Qc = key n.
Proof.
  unfold key. rewrite Z2Qc_inj_mul, Qcmult_comm.
  apply Qcdiv_mult_l.
  rewrite <- Z2Qc_inj_0. intros H. apply Z2Qc_inj in H. lia.
Qed.

End Loops.

(** ** The loops of [removeMolecule] *)

Section RemoveMoleculeLoops.

Import Js MoleculeForceAndMotionDataSet DataSetViews.
Local Open Scope Z_scope.

Lemma shiftCells_get {A} (a : array A) (s : Z) (len : nat) :
  (forall i, s <= i < s + Z.of_nat len ->
     get (shiftCells (seqZ s (Z.of_nat len)) a) (key i) = get a (key (i + 1)))
  /\ (forall k, (forall i, s <= i < s + Z.of_nat len -> k <> key i) ->
        get (shiftCells (seqZ s (Z.of_nat len)) a) k = get a k).
Proof.
  unfold shiftCells. induction len as [|len [IHin IHout]].
  - simpl. split; [intros i Hi; lia | reflexivity].
  - rewrite seqZ_S, foldl_app. simpl. split.
    + intros i Hi. destruct (decide (i = s + Z.of_nat len)) as [->|Hne].
      * rewrite get_set_eq. apply IHout.
        intros j Hj E. apply Z2Qc_inj in E. lia.
      * rewrite get_set_ne by (intros E; apply Z2Qc_inj in E; lia).
        apply IHin. lia.
    + intros k Hk. rewrite get_set_ne.
      * apply IHout. intros i Hi. apply Hk. lia.
      * intros E. apply (Hk (s + Z.of_nat len)); [lia | congruence].
Qed.

(** The first loop of [removeMolecule], array by array: the counters and
    [atomPositions] are not written. *)
Lemma foldl_shiftMoleculeData (l : list Z) (d : t) :
  foldl (fun d' i => shiftMoleculeData i d') d l
  = make (numberOfAtoms d) (numberOfSafeMolecules d) (atomsPerMolecule d)
      (atomPositions d)
      (shiftCells l (moleculeCenterOfMassPositions d))
      (shiftCells l (moleculeVelocities d))
      (shiftCells l (moleculeForces d))
      (shiftCells l (nextMoleculeForces d))
      (shiftCells l (moleculeRotationAngles d))
      (shiftCells l (moleculeRotationRates d))
      (shiftCells l (moleculeTorques d))
      (shiftCells l (nextMoleculeTorques d))
      (moleculeMass d) (moleculeRotationalInertia d).
Proof.
  revert d. induction l as [|i l IH]; intros d; simpl.
  - destruct d; reflexivity.
  - rewrite IH. destruct d; reflexivity.
Qed.

Lemma counter_values_step (fuel : nat) (a b : Z) (p : positive) :
  b - a <= Z.of_nat fuel ->
  counter_values fuel (a * Zpos p) (key (b * Zpos p)) (Zpos p)
  = (fun j => j * Zpos p) <$> seqZ a (b - a).
Proof.
  revert a. induction fuel as [|fuel IH]; intros a Hfuel; simpl.
  - rewrite seqZ_nil by lia. reflexivity.
  - destruct (decide (key (a * Zpos p) < key (b * Zpos p))%Qc) as [Hlt|Hge].
    + apply Z2Qc_inj_lt in Hlt. assert (a < b) by nia.
      rewrite (seqZ_cons a (b - a)) by lia. simpl. f_equal.
      replace (a * Zpos p + Zpos p) with ((a + 1) * Zpos p) by lia.
      rewrite IH by lia.
      replace (Z.succ a) with (a + 1) by lia.
      replace (Z.pred (b - a)) with (b - (a + 1)) by lia.
      reflexivity.
    + assert (b <= a).
      { destruct (Z_lt_le_dec a b) as [H|H]; [|exact H].
        exfalso. apply Hge. apply (proj1 (Z2Qc_inj_lt _ _)). nia. }
      rewrite seqZ_nil by lia. reflexivity.
Qed.

(** A loop that counts by [p] between two multiples of [p]. *)
Lemma for_range_step (a b : Z) (p : positive) :
  for_range (a * Zpos p) (key (b * Zpos p)) (Zpos p)
  = (fun j => j * Zpos p) <$> seqZ a (b - a).
Proof.
  unfold for_range. rewrite Qceiling_key. apply counter_values_step.
  destruct (Z_lt_le_dec a b); [|lia].
  rewrite Z2Nat.id by nia. nia.
Qed.

(** The three ways [removeMolecule] ends on a data set of [n] whole
    molecules: the request is ignored; or the per-molecule arrays are shifted
    and the first round of the per-atom loop raises; or, at the last index,
    neither loop has a round to run and the count is lowered. *)
Lemma removeMolecule_cases (moleculeIndex n : Z) (d : t) :
  numberOfAtoms d = Zpos (atomsPerMolecule d) * n ->
  removeMolecule moleculeIndex d
  = if decide (n <= moleculeIndex) then (Normal tt, d)
    else if decide (moleculeIndex < n - 1) then
      (Throw ReferenceError,
       foldl (fun d' i => shiftMoleculeData i d') d
         (seqZ moleculeIndex (n - 1 - moleculeIndex)))
    else
      (Normal tt, with_numberOfAtoms (numberOfAtoms d - Zpos (atomsPerMolecule d)) d).
Proof.
  intros Hn. unfold removeMolecule.
  assert (Hnm : getNumberOfMolecules d = key n).
  { unfold getNumberOfMolecules. rewrite Hn. apply key_quotient. }
  rewrite Hnm.
  destruct (decide (Qcle (key n) (key moleculeIndex))) as [Hout|Hin].
  { apply Z2Qc_inj_le in Hout. destruct (decide (n <= moleculeIndex)); [reflexivity|lia]. }
  assert (Hlt : moleculeIndex < n).
  { destruct (Z_lt_le_dec moleculeIndex n) as [H|H]; [exact H|].
    exfalso. apply Hin. apply (proj1 (Z2Qc_inj_le _ _)). exact H. }
  destruct (decide (n <= moleculeIndex)) as [|_]; [lia|].
  replace (key n - 1)%Qc with (key (n - 1))
    by (unfold key; rewrite Z2Qc_inj_sub, Z2Qc_inj_1; reflexivity).
  rewrite for_range_unit.
  set (d1 := foldl _ d _).
  assert (Ha : numberOfAtoms d1 = numberOfAtoms d)
    by (subst d1; rewrite foldl_shiftMoleculeData; reflexivity).
  assert (Hp : atomsPerMolecule d1 = atomsPerMolecule d)
    by (subst d1; rewrite foldl_shiftMoleculeData; reflexivity).
  rewrite Ha, Hp.
  replace (numberOfAtoms d - Zpos (atomsPerMolecule d))
    with ((n - 1) * Zpos (atomsPerMolecule d)) by lia.
  rewrite for_range_step.
  destruct (decide (moleculeIndex < n - 1)) as [Hmid|Hlast].
  - rewrite (seqZ_cons moleculeIndex) by lia. reflexivity.
  - rewrite seqZ_nil by lia. simpl.
    subst d1. rewrite seqZ_nil by lia. reflexivity.
Qed.

End RemoveMoleculeLoops.
(** ** The data set *)

Section TemperatureOfEmptyDataSet.

Import Js MoleculeForceAndMotionDataSet.
Local Open Scope Z_scope.

Variable Math_pow : float -> float -> float.

Lemma zero_over_zero_quotient (c : float) :
  ((0 + 0) / (0 / c) / 1.5)%float = nan.
Proof.
  rewrite <- (FloatAxioms.SF2Prim_Prim2SF (0 / c)).
  rewrite (FloatAxioms.div_spec 0 c).
  change (Prim2SF 0) with (S754_zero false).
  destruct (Prim2SF c) as [s|s| |s m e]; simpl; try destruct s;
    vm_compute; reflexivity.
Qed.

Lemma nan_is_not_zero : nan <> 0%float.
Proof.
  intros H. apply (f_equal is_nan) in H. vm_compute in H. discriminate H.
Qed.

(** C8.  For a data set whose [numberOfAtoms] is 0,
    [calculateTemperatureFromKineticEnergy] returns normally, and what it
    returns is [NaN], the quotient [0 / 0] of the energy by the number of
    atoms (or of molecules); it is not 0, neither as a value nor under [===]. *)
Theorem calculateTemperature_no_atoms (d : t) :
  numberOfAtoms d = 0 ->
  calculateTemperatureFromKineticEnergy Math_pow d = Normal nan
  /\ nan <> 0%float
  /\ (nan =? 0)%float = false.
Proof.
  intros Hzero. split; [|split; [exact nan_is_not_zero | reflexivity]].
  unfold calculateTemperatureFromKineticEnergy, getNumberOfMolecules.
  rewrite Hzero.
  destruct (decide (atomsPerMolecule d = 1%positive)) as [_|_].
  - rewrite for_range_unit. reflexivity.
  - assert (E : (key 0 / key (Z.pos (atomsPerMolecule d)))%Qc = key 0).
    { unfold key. rewrite Z2Qc_inj_0. unfold Qcdiv. apply Qcmult_0_l. }
    rewrite E, for_range_unit. simpl.
    f_equal. apply zero_over_zero_quotient.
Qed.

End TemperatureOfEmptyDataSet.

Lemma calculateTemperature_no_atoms_witness :
  MoleculeForceAndMotionDataSet.numberOfAtoms Sample.emptyMonatomicDataSet = 0%Z
  /\ MoleculeForceAndMotionDataSet.calculateTemperatureFromKineticEnergy
       Sample.pow Sample.emptyMonatomicDataSet = Js.Normal nan
  /\ nan <> 0%float
  /\ (nan =? 0)%float = false.
Proof.
  split; [reflexivity|].
  apply (calculateTemperature_no_atoms Sample.pow Sample.emptyMonatomicDataSet).
  reflexivity.
Defined.

Section AddMolecule.

Import Js MoleculeForceAndMotionDataSet.
Local Open Scope Z_scope.

Variable MAX_NUM_ATOMS : Z.

Lemma with_atomPositions_twice (a a' : array Vector2.t) (d : t) :
  with_atomPositions a' (with_atomPositions a d) = with_atomPositions a' d.
Proof. reflexivity. Qed.

Lemma with_atomPositions_same (d : t) : with_atomPositions (atomPositions d) d = d.
Proof. destruct d; reflexivity. Qed.

(** The first loop of [addMolecule], when every atom position is given: the
    cells behind the atoms present take copies, no other cell changes. *)
Lemma copyAtomPositions_spec (given : list Vector2.t) (indices : list Z) (d : t) :
  NoDup indices ->
  (forall i, i ∈ indices -> is_Some (given !! Z.to_nat i)) ->
  exists a',
    copyAtomPositions given indices d = (Normal tt, with_atomPositions a' d)
    /\ (forall i p, i ∈ indices -> given !! Z.to_nat i = Some p ->
          get a' (key (i + numberOfAtoms d)) = Some (Vector2.copy p))
    /\ (forall k, (forall i, i ∈ indices -> k <> key (i + numberOfAtoms d)) ->
          get a' k = get (atomPositions d) k).
Proof.
  revert d. induction indices as [|i rest IH]; intros d Hnodup Hgiven.
  - exists (atomPositions d). simpl. rewrite with_atomPositions_same.
    split; [reflexivity|]. split.
    + intros j p Hj. inversion Hj.
    + reflexivity.
  - apply NoDup_cons in Hnodup as [Hnotin Hnodup].
    destruct (Hgiven i) as [p Hp]; [left|].
    simpl. rewrite Hp.
    set (d1 := with_atomPositions _ d).
    destruct (IH d1 Hnodup) as (a' & Hrun & Hnew & Hold).
    { intros j Hj. apply Hgiven. right. exact Hj. }
    exists a'. rewrite Hrun. subst d1. rewrite with_atomPositions_twice.
    split; [reflexivity|]. simpl in Hnew, Hold. split.
    + intros j q Hj Hq. apply elem_of_cons in Hj as [->|Hj].
      * rewrite Hold.
        -- rewrite get_set_eq. congruence.
        -- intros j Hj E. apply Z2Qc_inj in E.
           assert (i = j) by lia. subst j. contradiction.
      * apply (Hnew j q Hj Hq).
    + intros k Hk. rewrite Hold.
      * apply get_set_ne. intros E. apply (Hk i); [left | congruence].
      * intros j Hj. apply Hk. right. exact Hj.
Qed.

(** C4.  If [getNumberOfRemainingSlots()] is 0, [addMolecule] returns
    [false] and the data set is the one it was.  Otherwise, given the atom
    positions of the molecule, it returns [true]; the cells of
    [atomPositions] behind the atoms present hold copies of the given
    positions and its other cells are as before; the cell of the new molecule
    holds the given center of mass, velocity and rotation rate (and fresh
    zero forces); [numberOfAtoms] has grown by [atomsPerMolecule];
    [numberOfSafeMolecules] and every other field are as before. *)
Theorem addMolecule_spec (given : list Vector2.t)
    (moleculeCenterOfMassPosition moleculeVelocity : Vector2.t)
    (moleculeRotationRate : float) (d : t) :
  let result :=
    addMolecule MAX_NUM_ATOMS given moleculeCenterOfMassPosition
      moleculeVelocity moleculeRotationRate d in
  (getNumberOfRemainingSlots MAX_NUM_ATOMS d = 0%Qc ->
     result = (Normal false, d))
  /\ (getNumberOfRemainingSlots MAX_NUM_ATOMS d <> 0%Qc ->
      Zpos (atomsPerMolecule d) <= Z.of_nat (length given) ->
      result.1 = Normal true
      /\ numberOfAtoms result.2 = numberOfAtoms d + Zpos (atomsPerMolecule d)
      /\ numberOfSafeMolecules result.2 = numberOfSafeMolecules d
      /\ (forall (i : nat) p, (Z.of_nat i < Zpos (atomsPerMolecule d)) ->
            given !! i = Some p ->
            get (atomPositions result.2) (key (numberOfAtoms d + Z.of_nat i))
            = Some (Vector2.copy p))
      /\ (forall k,
            (forall i, 0 <= i < Zpos (atomsPerMolecule d) ->
                       k <> key (numberOfAtoms d + i)) ->
            get (atomPositions result.2) k = get (atomPositions d) k)
      /\ moleculeCenterOfMassPositions result.2
         = set (moleculeCenterOfMassPositions d) (getNumberOfMolecules d)
             (Some moleculeCenterOfMassPosition)
      /\ moleculeVelocities result.2
         = set (moleculeVelocities d) (getNumberOfMolecules d) (Some moleculeVelocity)
      /\ moleculeRotationRates result.2
         = set (moleculeRotationRates d) (getNumberOfMolecules d)
             (Some moleculeRotationRate)
      /\ moleculeForces result.2
         = set (moleculeForces d) (getNumberOfMolecules d) (Some Vector2.zero)
      /\ nextMoleculeForces result.2
         = set (nextMoleculeForces d) (getNumberOfMolecules d) (Some Vector2.zero)
      /\ atomsPerMolecule result.2 = atomsPerMolecule d
      /\ moleculeRotationAngles result.2 = moleculeRotationAngles d
      /\ moleculeTorques result.2 = moleculeTorques d
      /\ nextMoleculeTorques result.2 = nextMoleculeTorques d
      /\ moleculeMass result.2 = moleculeMass d
      /\ moleculeRotationalInertia result.2 = moleculeRotationalInertia d).
Proof.
  intros result. subst result. unfold addMolecule. split.
  - intros Hfull. destruct (decide _) as [_|Hne]; [reflexivity | contradiction].
  - intros Hslots Hgiven. destruct (decide _) as [Hfull|_]; [contradiction|].
    rewrite for_range_unit.
    destruct (copyAtomPositions_spec given (seqZ 0 (Zpos (atomsPerMolecule d) - 0)) d)
      as (a' & Hrun & Hnew & Hold).
    { apply NoDup_seqZ. }
    { intros i Hi. apply elem_of_seqZ in Hi. apply lookup_lt_is_Some. lia. }
    rewrite Hrun. simpl.
    repeat split; try reflexivity.
    + intros i p Hi Hp.
      replace (numberOfAtoms d + Z.of_nat i) with (Z.of_nat i + numberOfAtoms d) by lia.
      apply Hnew.
      * apply elem_of_seqZ. lia.
      * rewrite Nat2Z.id. exact Hp.
    + intros k Hk. apply Hold. intros i Hi. apply elem_of_seqZ in Hi.
      replace (i + numberOfAtoms d) with (numberOfAtoms d + i) by lia.
      apply Hk. lia.
Qed.

End AddMolecule.


Lemma addMolecule_spec_witness :
  MoleculeForceAndMotionDataSet.getNumberOfRemainingSlots 1 (Sample.oneAtomDataSet 1)
  = 0%Qc
  /\ MoleculeForceAndMotionDataSet.addMolecule 1 [Vector2.make 5 6]
       (Vector2.make 5 6) (Vector2.make 7 8) 0%float (Sample.oneAtomDataSet 1)
     = (Js.Normal false, Sample.oneAtomDataSet 1)
  /\ MoleculeForceAndMotionDataSet.getNumberOfRemainingSlots 500
       Sample.emptyMonatomicDataSet <> 0%Qc
  /\ (MoleculeForceAndMotionDataSet.addMolecule 500 [Vector2.make 5 6]
        (Vector2.make 5 6) (Vector2.make 7 8) 0%float
        Sample.emptyMonatomicDataSet).1 = Js.Normal true.
Proof.
  assert (Hfull : MoleculeForceAndMotionDataSet.getNumberOfRemainingSlots 1
                    (Sample.oneAtomDataSet 1) = 0%Qc).
  { apply Qc_is_canon. reflexivity. }
  assert (Hfree : MoleculeForceAndMotionDataSet.getNumberOfRemainingSlots 500
                    Sample.emptyMonatomicDataSet <> 0%Qc).
  { intros H. apply (f_equal this) in H. vm_compute in H. discriminate H. }
  split; [exact Hfull|]. split.
  - exact (proj1 (addMolecule_spec 1 [Vector2.make 5 6] (Vector2.make 5 6)
                    (Vector2.make 7 8) 0%float (Sample.oneAtomDataSet 1)) Hfull).
  - split; [exact Hfree|].
    refine (proj1 (proj2 (addMolecule_spec 500 [Vector2.make 5 6] (Vector2.make 5 6)
                    (Vector2.make 7 8) 0%float Sample.emptyMonatomicDataSet) Hfree _)).
    simpl. lia.
Defined.

(** One atom of velocity (3, 4): the temperature is (9 + 16) / 2. *)
Example calculateTemperature_one_atom :
  MoleculeForceAndMotionDataSet.calculateTemperatureFromKineticEnergy Sample.pow
    (Sample.oneAtomDataSet 500) = Js.Normal 12.5%float.
Proof. reflexivity. Qed.

(** ** The invariant of the data set under its operations *)

Section InvariantPreservation.

Import Js MoleculeForceAndMotionDataSet DataSetInvariant.
Local Open Scope Z_scope.

Variable MAX_NUM_ATOMS : Z.
Variable DIATOMIC_PARTICLE_DISTANCE : float.
Variable Math_pow : float -> float -> float.
Variable distance : Vector2.t -> Vector2.t -> float.















End InvariantPreservation.

(** The constructor returns the sample data sets, and raises for three atoms
    a molecule. *)
Example new_dataSets :
  MoleculeForceAndMotionDataSet.new 1 Sample.pow 1 = Js.Normal Sample.emptyMonatomicDataSet
  /\ MoleculeForceAndMotionDataSet.new 1 Sample.pow 2
     = Js.Normal Sample.emptyDiatomicDataSet
  /\ MoleculeForceAndMotionDataSet.new 1 Sample.pow 3 = Js.Throw Js.ReferenceError.
Proof. repeat split. Qed.




(** ** The calculator *)

Section Calculator.

Import Js AbstractVerletAlgorithm.
Local Open Scope float_scope.

Variable Math_pow : float -> float -> float.

(** C2.  [updatePressure( wallForceSum )]: if the model is exploded, the
    pressure of the calculator is set to 0 (and the model is as it was).
    Otherwise the new pressure is
    [(1 − 0.999)·(wallForceSum / (normalizedContainerWidth +
    normalizedContainerHeight)) + 0.999·(previous pressure)]; if it exceeds
    the explosion threshold 1.05 the container transitions to exploded, and
    if not the model is as it was.  The other fields of the calculator are
    not touched. *)
Theorem updatePressure_spec (wallForceSum : float) (self : t)
    (model : MultipleParticleModel.t) :
  let result := Verlet.updatePressure wallForceSum self model in
  let average :=
    (1 - 0.999)
    * (wallForceSum
       / (MultipleParticleModel.normalizedContainerWidth model
          + MultipleParticleModel.normalizedContainerHeight model))
    + 0.999 * pressure self in
  (MultipleParticleModel.isExploded model = true ->
     pressure result.1 = 0 /\ result.2 = model)
  /\ (MultipleParticleModel.isExploded model = false ->
      pressure result.1 = average
      /\ ((1.05 <? average) = true ->
          MultipleParticleModel.isExploded result.2 = true
          /\ result.2 = MultipleParticleModel.explodeContainer model)
      /\ ((1.05 <? average) = false -> result.2 = model))
  /\ potentialEnergy result.1 = potentialEnergy self
  /\ temperature result.1 = temperature self.
Proof.
  intros result average. subst result. unfold Verlet.updatePressure.
  fold average.
  change ((1 - PRESSURE_CALC_WEIGHTING)
          * (wallForceSum
             / (MultipleParticleModel.normalizedContainerWidth model
                + MultipleParticleModel.getNormalizedContainerHeight model))
          + PRESSURE_CALC_WEIGHTING * pressure self) with average.
  change EXPLOSION_PRESSURE with 1.05.
  destruct (MultipleParticleModel.isExploded model) eqn:Hexploded; simpl.
  - repeat split; try reflexivity; intros; discriminate.
  - split; [intros; discriminate|].
    destruct (1.05 <? average) eqn:Hover; simpl;
      repeat split; try reflexivity; intros; discriminate.
Qed.

Lemma wall_threshold_positive : (0 <? WALL_DISTANCE_THRESHOLD) = true.
Proof. reflexivity. Qed.

Lemma wall_minimum_positive : (0 <? WALL_DISTANCE_THRESHOLD * 0.8) = true.
Proof. reflexivity. Qed.

(** The block for the Y direction writes the Y component only. *)
Lemma verticalWallForce_keeps_x (xPos yPos containerWidth containerHeight : float)
    (force : Vector2.t) (self : t) (model : MultipleParticleModel.t) :
  Vector2.x (Verlet.verticalWallForce Math_pow xPos yPos containerWidth
               containerHeight force self model).1.1 = Vector2.x force.
Proof.
  unfold Verlet.verticalWallForce.
  repeat match goal with
         | |- context [if ?c then _ else _] => destruct c; simpl
         end; reflexivity.
Qed.

(** C3.  A particle position whose y-coordinate is strictly below 0: if the
    model is not exploded when [calculateWallForce] evaluates the position,
    its flag [isExploded] is [true] after the call. *)
Theorem calculateWallForce_below_floor (position resultantForce : Vector2.t)
    (containerWidth containerHeight : float) (self : t)
    (model : MultipleParticleModel.t) :
  (Vector2.y position <? 0) = true ->
  MultipleParticleModel.isExploded model = false ->
  MultipleParticleModel.isExploded
    (Verlet.calculateWallForce Math_pow (Some position) containerWidth
       containerHeight (Some resultantForce) self model).2 = true.
Proof.
  intros Hbelow Hintact. unfold Verlet.calculateWallForce.
  destruct (Verlet.horizontalWallForce _ _ _ _ _ _ _) as [[xPos1 force1] self1].
  unfold Verlet.verticalWallForce.
  rewrite (ltb_through_zero _ WALL_DISTANCE_THRESHOLD Hbelow wall_threshold_positive).
  rewrite (ltb_through_zero _ (WALL_DISTANCE_THRESHOLD * 0.8) Hbelow wall_minimum_positive).
  rewrite Hbelow, Hintact. simpl.
  destruct ((0 <? xPos1) && (xPos1 <? containerWidth)); reflexivity.
Qed.

(** C10.  [calculateWallForce] evaluates the force of the left and right
    walls only when the y-coordinate of the particle is strictly less than
    [normalizedContainerWidth].  For a particle at or above that height (and
    for any whose y-coordinate is not below it), whatever its x-coordinate:
    the block of the X direction changes neither the force, nor the
    potential energy, nor the local [xPos]; the call is the block of the Y
    direction alone; and the X component of the force is the one passed in. *)
Theorem calculateWallForce_horizontal_guard (position resultantForce : Vector2.t)
    (containerWidth containerHeight : float) (self : t)
    (model : MultipleParticleModel.t) :
  let xPos := Vector2.x position in
  let yPos := Vector2.y position in
  let result :=
    Verlet.calculateWallForce Math_pow (Some position) containerWidth
      containerHeight (Some resultantForce) self model in
  let vertical :=
    Verlet.verticalWallForce Math_pow xPos yPos containerWidth containerHeight
      resultantForce self model in
  ((MultipleParticleModel.normalizedContainerWidth model <=? yPos) = true ->
   (yPos <? MultipleParticleModel.normalizedContainerWidth model) = false)
  /\ ((yPos <? MultipleParticleModel.normalizedContainerWidth model) = false ->
      Verlet.horizontalWallForce Math_pow xPos yPos containerWidth
        resultantForce self model = (xPos, resultantForce, self)
      /\ result = (Some vertical.1.1, vertical.1.2, vertical.2)
      /\ Vector2.x <$> result.1.1 = Some (Vector2.x resultantForce)).
Proof.
  intros xPos yPos result vertical. split; [apply leb_not_ltb|].
  intros Hguard.
  assert (Hx : Verlet.horizontalWallForce Math_pow xPos yPos containerWidth
                 resultantForce self model = (xPos, resultantForce, self)).
  { unfold Verlet.horizontalWallForce. rewrite Hguard. reflexivity. }
  split; [exact Hx|].
  assert (Hr : result = (Some vertical.1.1, vertical.1.2, vertical.2)).
  { subst result. unfold Verlet.calculateWallForce. fold xPos yPos.
    rewrite Hx. fold vertical. destruct vertical as [[f s] m]. reflexivity. }
  split; [exact Hr|].
  rewrite Hr. simpl. f_equal. apply verticalWallForce_keeps_x.
Qed.

End Calculator.

Lemma updatePressure_spec_witness :
  MultipleParticleModel.isExploded Sample.explodedModel = true
  /\ AbstractVerletAlgorithm.pressure
       (Verlet.updatePressure 100000000 AbstractVerletAlgorithm.new
          Sample.explodedModel).1 = 0%float
  /\ MultipleParticleModel.isExploded Sample.intactModel = false
  /\ AbstractVerletAlgorithm.pressure
       (Verlet.updatePressure 100000000 AbstractVerletAlgorithm.new
          Sample.intactModel).1
     = ((1 - 0.999) * (100000000 / (20 + 30 / 1)) + 0.999 * 0)%float
  /\ MultipleParticleModel.isExploded
       (Verlet.updatePressure 100000000 AbstractVerletAlgorithm.new
          Sample.intactModel).2 = true.
Proof.
  pose proof (updatePressure_spec 100000000 AbstractVerletAlgorithm.new
                Sample.explodedModel) as (Hexploded & _).
  pose proof (updatePressure_spec 100000000 AbstractVerletAlgorithm.new
                Sample.intactModel) as (_ & Hintact & _).
  split; [reflexivity|]. split; [exact (proj1 (Hexploded eq_refl))|].
  split; [reflexivity|].
  destruct (Hintact eq_refl) as (Hpressure & Hover & _).
  split; [exact Hpressure|]. exact (proj1 (Hover eq_refl)).
Defined.

Lemma calculateWallForce_below_floor_witness :
  (Vector2.y (Vector2.make 5 (-1)) <? 0)%float = true
  /\ MultipleParticleModel.isExploded Sample.intactModel = false
  /\ MultipleParticleModel.isExploded
       (Verlet.calculateWallForce Sample.pow (Some (Vector2.make 5 (-1))) 20 30
          (Some Vector2.zero) AbstractVerletAlgorithm.new Sample.intactModel).2
     = true.
Proof.
  split; [reflexivity|]. split; [reflexivity|].
  apply (calculateWallForce_below_floor Sample.pow (Vector2.make 5 (-1))
           Vector2.zero 20 30 AbstractVerletAlgorithm.new Sample.intactModel);
    reflexivity.
Defined.

Lemma calculateWallForce_horizontal_guard_witness :
  (MultipleParticleModel.normalizedContainerWidth Sample.intactModel
   <=? Vector2.y (Vector2.make 0.5 25))%float = true
  /\ Vector2.x
       <$> (Verlet.calculateWallForce Sample.pow (Some (Vector2.make 0.5 25)) 20 30
              (Some Vector2.zero) AbstractVerletAlgorithm.new Sample.intactModel).1.1
     = Some 0%float.
Proof.
  split; [reflexivity|].
  pose proof (calculateWallForce_horizontal_guard Sample.pow (Vector2.make 0.5 25)
                Vector2.zero 20 30 AbstractVerletAlgorithm.new Sample.intactModel)
    as (Habove & Hguard).
  exact (proj2 (proj2 (Hguard (Habove eq_refl)))).
Defined.

(** ** The model *)

Section ModelProperties.

Import Js MultipleParticleModel.
Local Open Scope float_scope.

Variable isokineticAdjustTemperature andersenAdjustTemperature :
  Thermostat.t -> MoleculeForceAndMotionDataSet.t -> MoleculeForceAndMotionDataSet.t.

(** C5.  A call of [runThermostat] runs at most one thermostat, never the
    isokinetic and the Andersen one both: the data set afterwards is the one
    before, or that after one [adjustTemperature] of one thermostat.  When the
    container is exploded no thermostat runs, and nothing changes at all. *)
Theorem runThermostat_at_most_one (m : t) :
  let result :=
    Model.runThermostat isokineticAdjustTemperature andersenAdjustTemperature m in
  (length (Model.thermostatsRun result.1) <= 1)%nat
  /\ ~ (Thermostat.Isokinetic ∈ Model.thermostatsRun result.1
        /\ Thermostat.Andersen ∈ Model.thermostatsRun result.1)
  /\ (moleculeDataSet result.2 = moleculeDataSet m
      \/ (exists thermostat,
             isoKineticThermostat m = Some thermostat
             /\ Model.thermostatsRun result.1 = [Thermostat.Isokinetic]
             /\ moleculeDataSet result.2
                = isokineticAdjustTemperature thermostat <$> moleculeDataSet m)
      \/ (exists thermostat,
             andersenThermostat m = Some thermostat
             /\ Model.thermostatsRun result.1 = [Thermostat.Andersen]
             /\ moleculeDataSet result.2
                = andersenAdjustTemperature thermostat <$> moleculeDataSet m))
  /\ (isExploded m = true -> result = (Normal [], m)).
Proof.
  intros result.
  assert (Hcases :
    (Model.thermostatsRun result.1 = [] /\ moleculeDataSet result.2 = moleculeDataSet m)
    \/ (exists thermostat,
           isoKineticThermostat m = Some thermostat
           /\ Model.thermostatsRun result.1 = [Thermostat.Isokinetic]
           /\ moleculeDataSet result.2
              = isokineticAdjustTemperature thermostat <$> moleculeDataSet m)
    \/ (exists thermostat,
           andersenThermostat m = Some thermostat
           /\ Model.thermostatsRun result.1 = [Thermostat.Andersen]
           /\ moleculeDataSet result.2
              = andersenAdjustTemperature thermostat <$> moleculeDataSet m)).
  { subst result. unfold Model.runThermostat.
    destruct (isExploded m); [left; split; reflexivity|].
    destruct (moleculeForceAndMotionCalculator m) as [calculator|];
      [|left; split; reflexivity].
    destruct (decide (heightChangeCounter m <> 0%Z)) as [_|_];
      [left; split; reflexivity|].
    - match goal with |- context [if ?c then _ else _] => destruct c end.
      + unfold Model.runIsokinetic.
        destruct (isoKineticThermostat m) as [thermostat|];
          [|left; split; reflexivity].
        right; left. exists thermostat. repeat split.
      + match goal with |- context [if ?c then _ else _] => destruct c end;
          [|left; split; reflexivity].
        unfold Model.runAndersen.
        destruct (andersenThermostat m) as [thermostat|];
          [|left; split; reflexivity].
        right; right. exists thermostat. repeat split. }
  split; [|split; [|split]].
  - destruct Hcases as [[-> _]|[(th & _ & -> & _)|(th & _ & -> & _)]]; simpl; lia.
  - intros [Hiso Hand].
    destruct Hcases as [[E _]|[(th & _ & E & _)|(th & _ & E & _)]];
      rewrite E in Hiso, Hand.
    + inversion Hiso.
    + apply list_elem_of_singleton in Hand. discriminate Hand.
    + apply list_elem_of_singleton in Hiso. discriminate Hiso.
  - destruct Hcases as [[_ H]|[H|H]]; [left; exact H | right; left; exact H
                                       | right; right; exact H].
  - intros Hexploded. subst result. unfold Model.runThermostat.
    rewrite Hexploded. reflexivity.
Qed.


(** C6, on the code.  [injectMolecule()] has an empty body: whatever the
    capacity that remains, the model after the call is the model before it,
    and so is its data set; no molecule is added. *)
Theorem injectMolecule_adds_nothing (m : t) :
  Model.injectMolecule m = m
  /\ moleculeDataSet (Model.injectMolecule m) = moleculeDataSet m.
Proof. split; reflexivity. Qed.

(** A number that is not in an interval is above it or below it. *)
Lemma outside_interval (low high x : float) :
  is_nan low = false -> is_nan high = false -> is_nan x = false ->
  (low <=? x) && (x <=? high) = false ->
  (high <? x) = true \/ (x <? low) = true.
Proof.
  intros Hlow Hhigh Hx Hout.
  destruct (high <? x) eqn:Habove; [left; reflexivity|].
  destruct (x <? low) eqn:Hbelow; [right; reflexivity|].
  rewrite (not_ltb_leb low x Hlow Hx Hbelow) in Hout.
  rewrite (not_ltb_leb x high Hx Hhigh Habove) in Hout.
  discriminate Hout.
Qed.

(** C7, as the method has it.  [setGravitationalAcceleration]: for an
    acceleration above [MAX_GRAVITATIONAL_ACCEL] (0.4) or below 0 the call
    raises and the model, [gravitationalAcceleration] included, is as it was;
    every number that is not from 0 to [MAX_GRAVITATIONAL_ACCEL] is above or
    below; for one from 0 to [MAX_GRAVITATIONAL_ACCEL] the call returns and
    [gravitationalAcceleration] is that value. *)
Theorem setGravitationalAcceleration_spec (acceleration : float) (m : t) :
  let result := Model.setGravitationalAcceleration acceleration m in
  ((0.4 <? acceleration) = true \/ (acceleration <? 0) = true ->
     is_normal result.1 = false
     /\ result.2 = m
     /\ gravitationalAcceleration result.2 = gravitationalAcceleration m)
  /\ (is_nan acceleration = false ->
      (0 <=? acceleration) && (acceleration <=? 0.4) = false ->
      (0.4 <? acceleration) = true \/ (acceleration <? 0) = true)
  /\ ((0 <=? acceleration) = true /\ (acceleration <=? 0.4) = true ->
      result.1 = Normal tt
      /\ result.2 = with_gravitationalAcceleration acceleration m
      /\ gravitationalAcceleration result.2 = acceleration).
Proof.
  intros result. subst result. unfold Model.setGravitationalAcceleration.
  change MAX_GRAVITATIONAL_ACCEL with 0.4. split; [|split].
  - intros [Habove|Hbelow].
    + rewrite Habove. repeat split.
    + rewrite Hbelow. destruct (0.4 <? acceleration); repeat split.
  - intros Hnumber Hout.
    apply (outside_interval 0 0.4 acceleration); [reflexivity | reflexivity | |];
      assumption.
  - intros [Hlow Hhigh].
    rewrite (leb_not_ltb acceleration 0.4 Hhigh).
    rewrite (leb_not_ltb 0 acceleration Hlow).
    repeat split.
Qed.

(** What the method does with [NaN]. *)
Lemma setGravitationalAcceleration_nan (m : t) :
  Model.setGravitationalAcceleration nan m
  = (Normal tt, with_gravitationalAcceleration nan m).
Proof. reflexivity. Qed.

Lemma setTemperature_setPoint (newTemperature : float) (m : t) :
  temperatureSetPoint (Model.setTemperature newTemperature m)
  = (if 50 <? newTemperature then 50
     else if newTemperature <? 0.0001 then 0.0001
     else newTemperature).
Proof.
  destruct m as [iso andersen ? ? ? ? ? ? ? ? ? ? ?].
  unfold Model.setTemperature. simpl.
  change MAX_TEMPERATURE with 50. change MIN_TEMPERATURE with 0.0001.
  destruct (50 <? newTemperature), (newTemperature <? 0.0001), iso, andersen;
    reflexivity.
Qed.

Lemma setTemperature_isoKinetic (newTemperature : float) (m : t) :
  isoKineticThermostat (Model.setTemperature newTemperature m)
  = (fun _ => Thermostat.make newTemperature) <$> isoKineticThermostat m.
Proof.
  destruct m as [iso andersen ? ? ? ? ? ? ? ? ? ? ?].
  unfold Model.setTemperature. simpl.
  destruct (MAX_TEMPERATURE <? newTemperature), (newTemperature <? MIN_TEMPERATURE),
    iso, andersen; reflexivity.
Qed.

Lemma setTemperature_andersen (newTemperature : float) (m : t) :
  andersenThermostat (Model.setTemperature newTemperature m)
  = (fun _ => Thermostat.make newTemperature) <$> andersenThermostat m.
Proof.
  destruct m as [iso andersen ? ? ? ? ? ? ? ? ? ? ?].
  unfold Model.setTemperature. simpl.
  destruct (MAX_TEMPERATURE <? newTemperature), (newTemperature <? MIN_TEMPERATURE),
    iso, andersen; reflexivity.
Qed.

(** C9, as the method has it.  [setTemperature] stores in
    [temperatureSetPoint] the input clamped by its two comparisons: an input
    that is a number, not [NaN], ends inside [[MIN_TEMPERATURE,
    MAX_TEMPERATURE]] (0.0001 and 50).  It gives both thermostats, where the
    model has them, the input itself as [targetTemperature].  A number outside
    the interval is above or below it, and for an input above or below, the
    target of each thermostat differs from the set point of the model. *)
Theorem setTemperature_spec (newTemperature : float) (m : t) :
  let m' := Model.setTemperature newTemperature m in
  temperatureSetPoint m'
  = (if 50 <? newTemperature then 50
     else if newTemperature <? 0.0001 then 0.0001
     else newTemperature)
  /\ (is_nan newTemperature = false ->
      (0.0001 <=? temperatureSetPoint m') = true
      /\ (temperatureSetPoint m' <=? 50) = true)
  /\ isoKineticThermostat m'
     = (fun _ => Thermostat.make newTemperature) <$> isoKineticThermostat m
  /\ andersenThermostat m'
     = (fun _ => Thermostat.make newTemperature) <$> andersenThermostat m
  /\ (is_nan newTemperature = false ->
      (0.0001 <=? newTemperature) && (newTemperature <=? 50) = false ->
      (50 <? newTemperature) = true \/ (newTemperature <? 0.0001) = true)
  /\ ((50 <? newTemperature) = true \/ (newTemperature <? 0.0001) = true ->
      forall thermostat,
        isoKineticThermostat m' = Some thermostat
        \/ andersenThermostat m' = Some thermostat ->
        Thermostat.targetTemperature thermostat = newTemperature
        /\ Thermostat.targetTemperature thermostat <> temperatureSetPoint m').
Proof.
  intros m'.
  pose proof (setTemperature_setPoint newTemperature m) as Hset.
  pose proof (setTemperature_isoKinetic newTemperature m) as Hiso.
  pose proof (setTemperature_andersen newTemperature m) as Hand.
  fold m' in Hset, Hiso, Hand.
  split; [exact Hset|].
  split; [|split; [exact Hiso|split; [exact Hand|split]]].
  - intros Hnumber. rewrite Hset.
    destruct (50 <? newTemperature) eqn:Habove; [split; reflexivity|].
    destruct (newTemperature <? 0.0001) eqn:Hbelow; [split; reflexivity|].
    split.
    + apply (not_ltb_leb 0.0001 newTemperature); [reflexivity | exact Hnumber | exact Hbelow].
    + apply (not_ltb_leb newTemperature 50); [exact Hnumber | reflexivity | exact Habove].
  - intros Hnumber Hout.
    apply (outside_interval 0.0001 50 newTemperature);
      [reflexivity | reflexivity | |]; assumption.
  - intros Hout thermostat Hthermostat.
    assert (Htarget : Thermostat.targetTemperature thermostat = newTemperature).
    { rewrite Hiso, Hand in Hthermostat.
      destruct Hthermostat as [H|H];
        [destruct (isoKineticThermostat m) | destruct (andersenThermostat m)];
        simpl in H; inversion H; reflexivity. }
    split; [exact Htarget|]. rewrite Htarget, Hset. intros Heq.
    destruct Hout as [Habove|Hbelow].
    + rewrite Habove in Heq. rewrite Heq in Habove. discriminate Habove.
    + destruct (50 <? newTemperature) eqn:Habove.
      * rewrite Heq in Habove. discriminate Habove.
      * rewrite Hbelow in Heq. rewrite Heq in Hbelow. discriminate Hbelow.
Qed.

End ModelProperties.

Lemma runThermostat_at_most_one_witness :
  MultipleParticleModel.isExploded Sample.explodedModel = true
  /\ Model.runThermostat (fun _ d => d) (fun _ d => d) Sample.explodedModel
     = (Js.Normal [], Sample.explodedModel)
  /\ (length (Model.thermostatsRun
                (Model.runThermostat (fun _ d => d) (fun _ d => d)
                   Sample.intactModel).1) <= 1)%nat.
Proof.
  pose proof (runThermostat_at_most_one (fun _ d => d) (fun _ d => d)
                Sample.explodedModel) as (_ & _ & _ & Hexploded).
  pose proof (runThermostat_at_most_one (fun _ d => d) (fun _ d => d)
                Sample.intactModel) as (Hone & _).
  split; [reflexivity|]. split; [exact (Hexploded eq_refl) | exact Hone].
Defined.

Lemma setGravitationalAcceleration_spec_witness :
  (0.4 <? 1)%float = true
  /\ (Model.setGravitationalAcceleration 1 Sample.intactModel).2 = Sample.intactModel
  /\ Js.is_normal (Model.setGravitationalAcceleration 1 Sample.intactModel).1 = false
  /\ (0 <=? 0.1)%float = true /\ (0.1 <=? 0.4)%float = true
  /\ MultipleParticleModel.gravitationalAcceleration
       (Model.setGravitationalAcceleration 0.1 Sample.intactModel).2 = 0.1%float.
Proof.
  pose proof (setGravitationalAcceleration_spec 1 Sample.intactModel) as (Hout & _).
  pose proof (setGravitationalAcceleration_spec 0.1 Sample.intactModel) as (_ & _ & Hin).
  destruct (Hout (or_introl eq_refl)) as (Hraise & Hsame & _).
  destruct (Hin (conj eq_refl eq_refl)) as (_ & _ & Hset).
  split; [reflexivity|]. split; [exact Hsame|]. split; [exact Hraise|].
  split; [reflexivity|]. split; [reflexivity|]. exact Hset.
Defined.

Lemma setTemperature_spec_witness :
  (50 <? 80)%float = true
  /\ MultipleParticleModel.temperatureSetPoint
       (Model.setTemperature 80 Sample.intactModel) = 50%float
  /\ MultipleParticleModel.isoKineticThermostat
       (Model.setTemperature 80 Sample.intactModel) = Some (Thermostat.make 80)
  /\ Thermostat.targetTemperature (Thermostat.make 80)
     <> MultipleParticleModel.temperatureSetPoint
          (Model.setTemperature 80 Sample.intactModel).
Proof.
  pose proof (setTemperature_spec 80 Sample.intactModel)
    as (Hset & _ & Hiso & _ & _ & Hout).
  split; [reflexivity|]. split; [exact Hset|]. split; [exact Hiso|].
  exact (proj2 (Hout (or_introl eq_refl) (Thermostat.make 80) (or_introl Hiso))).
Defined.

(** C7, as it is stated, fails at [NaN]: it is not a value from 0 to
    [MAX_GRAVITATIONAL_ACCEL], yet both comparisons of the method are false on
    it, so the call returns and [NaN] is the [gravitationalAcceleration] of
    the model, which was 0.045. *)
Lemma setGravitationalAcceleration_stores_nan :
  ((0 <=? nan) && (nan <=? 0.4))%float = false
  /\ Model.setGravitationalAcceleration nan Sample.intactModel
     = (Js.Normal tt,
        MultipleParticleModel.with_gravitationalAcceleration nan Sample.intactModel)
  /\ MultipleParticleModel.gravitationalAcceleration Sample.intactModel = 0.045%float
  /\ MultipleParticleModel.gravitationalAcceleration
       (Model.setGravitationalAcceleration nan Sample.intactModel).2 = nan.
Proof. repeat split. Qed.

(** C9, as it is stated, fails at [NaN]: neither comparison of the method
    holds on it, so [NaN] is stored as the set point, which is then not
    inside [[MIN_TEMPERATURE, MAX_TEMPERATURE]]. *)
Lemma setTemperature_stores_nan :
  MultipleParticleModel.temperatureSetPoint
    (Model.setTemperature nan Sample.intactModel) = nan
  /\ (0.0001 <=? MultipleParticleModel.temperatureSetPoint
                   (Model.setTemperature nan Sample.intactModel))%float = false
  /\ (MultipleParticleModel.temperatureSetPoint
        (Model.setTemperature nan Sample.intactModel) <=? 50)%float = false.
Proof. repeat split. Qed.

(** The model of the samples has room for 499 more atoms, and
    [injectMolecule()] leaves its data set of one atom as it is. *)
Lemma injectMolecule_with_capacity_left :
  MoleculeForceAndMotionDataSet.getNumberOfRemainingSlots 500
    (Sample.oneAtomDataSet 500) = Js.key 499
  /\ MultipleParticleModel.moleculeDataSet (Model.injectMolecule Sample.intactModel)
     = Some (Sample.oneAtomDataSet 500)
  /\ MoleculeForceAndMotionDataSet.numberOfAtoms (Sample.oneAtomDataSet 500) = 1%Z.
Proof.
  split; [apply Qc_is_canon; reflexivity|]. split; reflexivity.
Qed.

(** * Further properties *)

(** ** More order and sign facts on binary64 numbers *)

Section FloatOrderMore.

Local Open Scope float_scope.

Lemma SFcompare_trans_cases (a b c : spec_float) :
  (SFltb a b = true -> SFltb b c = true -> SFltb a c = true)
  /\ (SFleb a b = true -> SFltb b c = true -> SFltb a c = true)
  /\ (SFltb a b = true -> SFleb b c = true -> SFltb a c = true)
  /\ (SFleb a b = true -> SFleb b c = true -> SFleb a c = true).
Proof.
  unfold SFltb, SFleb, SFcompare.
  destruct a as [sa|sa| |sa ma ea], b as [sb|sb| |sb mb eb], c as [sc|sc| |sc mc ec];
    try destruct sa; try destruct sb; try destruct sc; simpl;
    repeat split; try congruence;
    change (PosDef.Pos.compare_cont Eq) with Pos.compare;
    repeat match goal with
           | |- context [Z.compare ?x ?y] => destruct (Z.compare_spec x y)
           | |- context [Pos.compare ?x ?y] => destruct (Pos.compare_spec x y)
           end; simpl; try congruence; try lia.
Qed.

Lemma leb_ltb_trans (a b c : float) :
  (a <=? b) = true -> (b <? c) = true -> (a <? c) = true.
Proof.
  rewrite FloatAxioms.leb_spec, !FloatAxioms.ltb_spec.
  apply (SFcompare_trans_cases (Prim2SF a) (Prim2SF b) (Prim2SF c)).
Qed.

Lemma leb_trans (a b c : float) :
  (a <=? b) = true -> (b <=? c) = true -> (a <=? c) = true.
Proof.
  rewrite !FloatAxioms.leb_spec.
  apply (SFcompare_trans_cases (Prim2SF a) (Prim2SF b) (Prim2SF c)).
Qed.

Lemma leb_is_number (a b : float) :
  (a <=? b) = true -> is_nan a = false /\ is_nan b = false.
Proof.
  unfold is_nan. rewrite FloatAxioms.leb_spec, !FloatAxioms.eqb_spec.
  unfold SFleb, SFeqb, SFcompare.
  destruct (Prim2SF a) as [sa|sa| |sa ma ea], (Prim2SF b) as [sb|sb| |sb mb eb];
    try destruct sa; try destruct sb; simpl; try congruence; intros _;
    rewrite ?Z.compare_refl;
    change (PosDef.Pos.compare_cont Eq) with Pos.compare;
    rewrite ?Pos.compare_refl; split; reflexivity.
Qed.

(** The product does not see a change of sign of both factors. *)
Lemma mul_opp_opp (a b : float) : (- a) * (- b) = a * b.
Proof.
  apply FloatAxioms.Prim2SF_inj.
  rewrite !FloatAxioms.mul_spec, !FloatAxioms.opp_spec.
  destruct (Prim2SF a) as [sa|sa| |sa ma ea], (Prim2SF b) as [sb|sb| |sb mb eb];
    simpl; try reflexivity; destruct sa, sb; reflexivity.
Qed.

End FloatOrderMore.

(** ** The capacity of the data set *)

Section Capacity.

Import Js MoleculeForceAndMotionDataSet DataSetInvariant DataSetViews.
Local Open Scope Z_scope.

Variable MAX_NUM_ATOMS : Z.

Lemma remainingSlots_zero_iff (d : t) :
  getNumberOfRemainingSlots MAX_NUM_ATOMS d = 0%Qc <-> numberOfAtoms d = MAX_NUM_ATOMS.
Proof.
  unfold getNumberOfRemainingSlots.
  assert (Hp : key (Zpos (atomsPerMolecule d)) <> 0%Qc).
  { unfold key. rewrite <- Z2Qc_inj_0. intros H. apply Z2Qc_inj in H. lia. }
  set (p := key (Zpos (atomsPerMolecule d))) in *.
  split.
  - intros H.
    assert (E : (key MAX_NUM_ATOMS / p)%Qc = (key (numberOfAtoms d) / p)%Qc).
    { rewrite <- (Qcplus_0_l (key (numberOfAtoms d) / p)%Qc), <- H. ring. }
    apply (f_equal (fun q => (q * p)%Qc)) in E.
    rewrite !test_field in E by exact Hp.
    symmetry. apply Z2Qc_inj. exact E.
  - intros ->. ring.
Qed.

(** X1.  [addMolecule] returns [false] exactly when [numberOfAtoms] equals
    [MAX_NUM_ATOMS]: the test is on the difference of the two quotients by
    [atomsPerMolecule], which is 0 for no other count. *)
Theorem addMolecule_refuses_iff (given : list Vector2.t)
    (position velocity : Vector2.t) (rotationRate : float) (d : t) :
  (addMolecule MAX_NUM_ATOMS given position velocity rotationRate d).1 = Normal false
  <-> numberOfAtoms d = MAX_NUM_ATOMS.
Proof.
  rewrite <- remainingSlots_zero_iff. unfold addMolecule.
  destruct (decide (getNumberOfRemainingSlots MAX_NUM_ATOMS d = 0%Qc)) as [Hz|Hnz].
  - split; [intros _; exact Hz | reflexivity].
  - destruct (copyAtomPositions _ _ _) as [[[]|e] d1]; simpl;
      split; intros H; try discriminate H; contradiction.
Qed.

(** What [addMolecule] does to the counters when the atoms are given. *)
Lemma addMolecule_counters (given : list Vector2.t)
    (position velocity : Vector2.t) (rotationRate : float) (d : t) :
  Zpos (atomsPerMolecule d) <= Z.of_nat (length given) ->
  let d' := (addMolecule MAX_NUM_ATOMS given position velocity rotationRate d).2 in
  atomsPerMolecule d' = atomsPerMolecule d
  /\ numberOfSafeMolecules d' = numberOfSafeMolecules d
  /\ numberOfAtoms d'
     = if decide (numberOfAtoms d = MAX_NUM_ATOMS) then numberOfAtoms d
       else numberOfAtoms d + Zpos (atomsPerMolecule d).
Proof.
  intros Hgiven. unfold addMolecule.
  destruct (decide (getNumberOfRemainingSlots MAX_NUM_ATOMS d = 0%Qc)) as [Hz|Hnz].
  - apply remainingSlots_zero_iff in Hz.
    destruct (decide (numberOfAtoms d = MAX_NUM_ATOMS)); [|contradiction].
    repeat split.
  - destruct (decide (numberOfAtoms d = MAX_NUM_ATOMS)) as [Hm|_].
    { apply remainingSlots_zero_iff in Hm. contradiction. }
    rewrite for_range_unit.
    destruct (copyAtomPositions_spec given (seqZ 0 (Zpos (atomsPerMolecule d) - 0)) d)
      as (a' & Hrun & _).
    { apply NoDup_seqZ. }
    { intros i Hi. apply elem_of_seqZ in Hi. apply lookup_lt_is_Some. lia. }
    rewrite Hrun. simpl. repeat split.
Qed.

Lemma addMolecules_from (molecules : list molecule) (d : t) (k : Z) :
  Forall (fun m => Zpos (atomsPerMolecule d) <= Z.of_nat (length (atoms m))) molecules ->
  numberOfAtoms d = Zpos (atomsPerMolecule d) * k ->
  let d' := addMolecules MAX_NUM_ATOMS molecules d in
  atomsPerMolecule d' = atomsPerMolecule d
  /\ numberOfSafeMolecules d' = numberOfSafeMolecules d
  /\ (forall c, k <= c -> MAX_NUM_ATOMS = Zpos (atomsPerMolecule d) * c ->
        numberOfAtoms d'
        = Zpos (atomsPerMolecule d) * Z.min (k + Z.of_nat (length molecules)) c)
  /\ ((forall c, k <= c -> MAX_NUM_ATOMS <> Zpos (atomsPerMolecule d) * c) ->
        numberOfAtoms d'
        = Zpos (atomsPerMolecule d) * (k + Z.of_nat (length molecules))).
Proof.
  revert d k. induction molecules as [|m rest IH]; intros d k Hall Hk; simpl.
  - repeat split.
    + intros c Hc _. rewrite Hk. f_equal. lia.
    + intros _. rewrite Hk. f_equal. lia.
  - apply Forall_cons in Hall as [Hm Hrest].
    destruct (addMolecule_counters (atoms m) (centerOfMass m) (velocity m)
                (rotationRate m) d Hm) as (Hp & Hs & Ha).
    set (d1 := (addMolecule MAX_NUM_ATOMS (atoms m) (centerOfMass m) (velocity m)
                  (rotationRate m) d).2) in *.
    destruct (decide (numberOfAtoms d = MAX_NUM_ATOMS)) as [Hfull|Hfree].
    + destruct (IH d1 k) as (Hp' & Hs' & Hcap & Hnone).
      { rewrite Hp. exact Hrest. }
      { rewrite Hp, Ha. exact Hk. }
      fold (addMolecules MAX_NUM_ATOMS rest d1).
      rewrite Hp in Hp', Hcap, Hnone. rewrite Hs in Hs'.
      split; [exact Hp'|]. split; [exact Hs'|]. split.
      * intros c Hc Hmax. rewrite (Hcap c Hc Hmax).
        assert (c = k) by nia. f_equal. lia.
      * intros Hno. exfalso. apply (Hno k); [lia | congruence].
    + destruct (IH d1 (k + 1)) as (Hp' & Hs' & Hcap & Hnone).
      { rewrite Hp. exact Hrest. }
      { rewrite Hp, Ha, Hk. lia. }
      fold (addMolecules MAX_NUM_ATOMS rest d1).
      rewrite Hp in Hp', Hcap, Hnone. rewrite Hs in Hs'.
      split; [exact Hp'|]. split; [exact Hs'|]. split.
      * intros c Hc Hmax.
        assert (k <> c) by (intros ->; apply Hfree; congruence).
        rewrite (Hcap c) by (lia || exact Hmax). f_equal. lia.
      * intros Hno. rewrite Hnone.
        -- f_equal. lia.
        -- intros c Hc. apply Hno. lia.
Qed.

(** X2.  Molecules added one after the other to a data set without atoms,
    each with its atoms given.  If [MAX_NUM_ATOMS] is [atomsPerMolecule]
    times a capacity [c], the data set ends with the smaller of the number
    of molecules and [c]: the additions beyond the capacity are refused.  If
    [MAX_NUM_ATOMS] is no such multiple, none is refused, and the data set
    ends with all of them, however many. *)
Theorem addMolecules_count (molecules : list molecule) (d : t) :
  numberOfAtoms d = 0 ->
  Forall (fun m => Zpos (atomsPerMolecule d) <= Z.of_nat (length (atoms m))) molecules ->
  let d' := addMolecules MAX_NUM_ATOMS molecules d in
  (forall c, 0 <= c -> MAX_NUM_ATOMS = Zpos (atomsPerMolecule d) * c ->
     numberOfAtoms d'
     = Zpos (atomsPerMolecule d) * Z.min (Z.of_nat (length molecules)) c)
  /\ ((forall c, 0 <= c -> MAX_NUM_ATOMS <> Zpos (atomsPerMolecule d) * c) ->
      numberOfAtoms d' = Zpos (atomsPerMolecule d) * Z.of_nat (length molecules)).
Proof.
  intros Hempty Hall d'.
  destruct (addMolecules_from molecules d 0 Hall) as (_ & _ & Hcap & Hnone).
  { rewrite Hempty. lia. }
  split.
  - intros c Hc Hmax. apply (Hcap c Hc Hmax).
  - intros Hno. apply (Hnone Hno).
Qed.

End Capacity.

Lemma addMolecules_count_witness :
  MoleculeForceAndMotionDataSet.numberOfAtoms
    (DataSetViews.addMolecules 2
       (replicate 3 (DataSetViews.makeMolecule [Vector2.zero] Vector2.zero Vector2.zero 0%float))
       Sample.emptyMonatomicDataSet) = 2%Z
  /\ MoleculeForceAndMotionDataSet.numberOfAtoms
       (DataSetViews.addMolecules 5 (replicate 3 SampleMore.diatomicMolecule)
          Sample.emptyDiatomicDataSet)
     = 6%Z.
Proof.
  split.
  - refine (proj1 (addMolecules_count 2 (replicate 3 _) Sample.emptyMonatomicDataSet
                     eq_refl _) 2%Z _ _); [|lia|reflexivity].
    apply Forall_forall. intros m Hm. apply elem_of_replicate in Hm as [-> _].
    simpl. lia.
  - refine (proj2 (addMolecules_count 5 (replicate 3 SampleMore.diatomicMolecule)
                     Sample.emptyDiatomicDataSet eq_refl _) _).
    + apply Forall_forall. intros m Hm. apply elem_of_replicate in Hm as [-> _].
      simpl. lia.
    + intros c Hc. simpl. lia.
Defined.

(** ** [addMolecule] without the atoms of the molecule *)

Section AddMoleculeRaises.

Import Js MoleculeForceAndMotionDataSet DataSetViews.
Local Open Scope Z_scope.

Variable MAX_NUM_ATOMS : Z.

(** The first loop writes only cells behind the atoms present, whatever
    it is given and however it ends. *)
Lemma copyAtomPositions_frame (given : list Vector2.t) (indices : list Z) (d : t) :
  exists a',
    (copyAtomPositions given indices d).2 = with_atomPositions a' d
    /\ (forall k, (forall i, i ∈ indices -> k <> key (i + numberOfAtoms d)) ->
          get a' k = get (atomPositions d) k).
Proof.
  revert d. induction indices as [|i rest IH]; intros d; simpl.
  - exists (atomPositions d). rewrite with_atomPositions_same. split; reflexivity.
  - destruct (given !! Z.to_nat i) as [p|].
    + set (d1 := with_atomPositions _ d).
      destruct (IH d1) as (a' & Hrun & Hold).
      exists a'. rewrite Hrun. subst d1. rewrite with_atomPositions_twice.
      split; [reflexivity|]. simpl in Hold.
      intros k Hk. rewrite Hold.
      * apply get_set_ne. intros E. apply (Hk i); [left | congruence].
      * intros j Hj. apply Hk. right. exact Hj.
    + exists (atomPositions d). simpl. rewrite with_atomPositions_same.
      split; reflexivity.
Qed.

Lemma copyAtomPositions_raises (given : list Vector2.t) (indices : list Z) (d : t) :
  (exists i, i ∈ indices /\ given !! Z.to_nat i = None) ->
  (copyAtomPositions given indices d).1 = Throw TypeError.
Proof.
  revert d. induction indices as [|i rest IH]; intros d (j & Hj & Hnone); simpl.
  - inversion Hj.
  - destruct (given !! Z.to_nat i) as [p|] eqn:Hi; [|reflexivity].
    apply IH. apply elem_of_cons in Hj as [->|Hj]; [congruence|].
    exists j. split; assumption.
Qed.

(** X3.  [addMolecule] on a data set that is not full, with fewer atom
    positions than [atomsPerMolecule]: the call raises a [TypeError]; the
    molecule is not added ([numberOfAtoms] and [numberOfSafeMolecules] are as
    before) and every field but [atomPositions] is as before; of
    [atomPositions] only cells behind the atoms present may have been written. *)
Theorem addMolecule_without_atoms (given : list Vector2.t)
    (position velocity : Vector2.t) (rotationRate : float) (d : t) :
  numberOfAtoms d <> MAX_NUM_ATOMS ->
  Z.of_nat (length given) < Zpos (atomsPerMolecule d) ->
  let result := addMolecule MAX_NUM_ATOMS given position velocity rotationRate d in
  result.1 = Throw TypeError
  /\ result.2 = with_atomPositions (atomPositions result.2) d
  /\ (forall i, i < numberOfAtoms d ->
        get (atomPositions result.2) (key i) = get (atomPositions d) (key i)).
Proof.
  intros Hfree Hshort result. subst result. unfold addMolecule.
  destruct (decide (getNumberOfRemainingSlots MAX_NUM_ATOMS d = 0%Qc)) as [Hz|_].
  { apply remainingSlots_zero_iff in Hz. contradiction. }
  rewrite for_range_unit.
  set (indices := seqZ 0 (Zpos (atomsPerMolecule d) - 0)).
  pose proof (copyAtomPositions_raises given indices d) as Hraise.
  destruct (copyAtomPositions_frame given indices d) as (a' & Hrun & Hold).
  destruct (copyAtomPositions given indices d) as [c d1]. simpl in Hraise, Hrun.
  rewrite Hraise.
  - simpl. subst d1. simpl. split; [reflexivity|]. split; [reflexivity|].
    intros i Hi. apply Hold. intros j Hj E. subst indices.
    apply elem_of_seqZ in Hj. apply Z2Qc_inj in E. lia.
  - exists (Z.of_nat (length given)). split.
    + subst indices. apply elem_of_seqZ. lia.
    + rewrite Nat2Z.id. apply lookup_ge_None. lia.
Qed.

End AddMoleculeRaises.

Lemma addMolecule_without_atoms_witness :
  MoleculeForceAndMotionDataSet.numberOfAtoms Sample.emptyDiatomicDataSet <> 500%Z
  /\ (MoleculeForceAndMotionDataSet.addMolecule 500 [Vector2.make 1 2]
        Vector2.zero Vector2.zero 0%float Sample.emptyDiatomicDataSet).1 = Js.Throw Js.TypeError.
Proof.
  assert (Hfree : MoleculeForceAndMotionDataSet.numberOfAtoms Sample.emptyDiatomicDataSet <> 500%Z).
  { simpl. lia. }
  split; [exact Hfree|].
  refine (proj1 (addMolecule_without_atoms 500 [Vector2.make 1 2] Vector2.zero
                   Vector2.zero 0%float Sample.emptyDiatomicDataSet Hfree _)).
  simpl. lia.
Defined.

(** ** What [removeMolecule] leaves behind *)

Section RemoveMolecule.

Import Js MoleculeForceAndMotionDataSet DataSetViews.
Local Open Scope Z_scope.

(** X4.  [removeMolecule] at an index in range, on a data set of [n] whole
    molecules.  At the last index, [n - 1], the call returns: one molecule
    less is counted and every array is as it was.  At an index before the
    last the call raises a [ReferenceError], at [System.arraycopy], after the
    per-molecule arrays were shifted and before anything else was done: the
    cells before the index are as they were, each cell from the index up to
    [n - 2] holds what the next cell held, and the cells from [n - 1] on are
    as they were, so the record of the molecule is gone and that of the last
    molecule is there twice; [atomPositions] and the counters are as before,
    so the data set still counts [n] molecules and the atoms from the index
    on are no longer those of the records. *)
Theorem removeMolecule_raises_before_last (moleculeIndex n : Z) (d : t) :
  numberOfAtoms d = Zpos (atomsPerMolecule d) * n ->
  0 <= moleculeIndex < n ->
  let result := removeMolecule moleculeIndex d in
  (moleculeIndex = n - 1 ->
     result
     = (Normal tt, with_numberOfAtoms (numberOfAtoms d - Zpos (atomsPerMolecule d)) d))
  /\ (moleculeIndex < n - 1 ->
      result.1 = Throw ReferenceError
      /\ numberOfAtoms result.2 = numberOfAtoms d
      /\ numberOfSafeMolecules result.2 = numberOfSafeMolecules d
      /\ atomsPerMolecule result.2 = atomsPerMolecule d
      /\ atomPositions result.2 = atomPositions d
      /\ (forall i, i < n - 1 ->
            moleculeRecord result.2 (key i)
            = moleculeRecord d (key (if decide (i < moleculeIndex) then i else i + 1)))
      /\ (forall i, n - 1 <= i ->
            moleculeRecord result.2 (key i) = moleculeRecord d (key i))).
Proof.
  intros Hn Hindex result. subst result.
  rewrite (removeMolecule_cases moleculeIndex n d Hn).
  destruct (decide (n <= moleculeIndex)) as [|_]; [lia|].
  destruct (decide (moleculeIndex < n - 1)) as [Hmid|Hlast].
  - split; [lia|]. intros _. rewrite foldl_shiftMoleculeData. simpl.
    assert (Hlen : n - 1 - moleculeIndex = Z.of_nat (Z.to_nat (n - 1 - moleculeIndex)))
      by lia.
    rewrite Hlen.
    repeat split.
    + intros i Hi. unfold moleculeRecord. simpl.
      destruct (decide (i < moleculeIndex)) as [Hbefore|Hafter].
      * repeat match goal with |- (_, _) = (_, _) => apply f_equal2 end;
          apply (proj2 (shiftCells_get _ moleculeIndex (Z.to_nat (n - 1 - moleculeIndex))));
          intros j Hj E; apply Z2Qc_inj in E; lia.
      * repeat match goal with |- (_, _) = (_, _) => apply f_equal2 end;
          apply (proj1 (shiftCells_get _ moleculeIndex (Z.to_nat (n - 1 - moleculeIndex))));
          lia.
    + intros i Hi. unfold moleculeRecord. simpl.
      repeat match goal with |- (_, _) = (_, _) => apply f_equal2 end;
        apply (proj2 (shiftCells_get _ moleculeIndex (Z.to_nat (n - 1 - moleculeIndex))));
        intros j Hj E; apply Z2Qc_inj in E; lia.
  - split; [intros _; reflexivity | intros Hmid; lia].
Qed.

Section AddThenRemove.

Variable MAX_NUM_ATOMS : Z.

(** The data set after an [addMolecule] that succeeds. *)
Lemma addMolecule_cells (given : list Vector2.t) (position velocity : Vector2.t)
    (rotationRate : float) (d : t) :
  numberOfAtoms d <> MAX_NUM_ATOMS ->
  Zpos (atomsPerMolecule d) <= Z.of_nat (length given) ->
  let d1 := (addMolecule MAX_NUM_ATOMS given position velocity rotationRate d).2 in
  (forall k, k <> getNumberOfMolecules d -> moleculeRecord d1 k = moleculeRecord d k)
  /\ (forall q, q < numberOfAtoms d ->
        get (atomPositions d1) (key q) = get (atomPositions d) (key q)).
Proof.
  intros Hfree Hgiven d1. subst d1. unfold addMolecule.
  destruct (decide (getNumberOfRemainingSlots MAX_NUM_ATOMS d = 0%Qc)) as [Hz|_].
  { apply remainingSlots_zero_iff in Hz. contradiction. }
  rewrite for_range_unit.
  destruct (copyAtomPositions_spec given (seqZ 0 (Zpos (atomsPerMolecule d) - 0)) d)
    as (a' & Hrun & _ & Hold).
  { apply NoDup_seqZ. }
  { intros i Hi. apply elem_of_seqZ in Hi. apply lookup_lt_is_Some. lia. }
  rewrite Hrun. simpl. split.
  - intros k Hk. unfold moleculeRecord. simpl.
    change (getNumberOfMolecules (with_atomPositions a' d))
      with (getNumberOfMolecules d).
    rewrite !get_set_ne by (intros E; apply Hk; symmetry; exact E).
    reflexivity.
  - intros q Hq. apply Hold. intros i Hi E. apply elem_of_seqZ in Hi.
    apply Z2Qc_inj in E. lia.
Qed.

(** X5.  A molecule added to a data set of [n] whole molecules that is not
    full, and then removed at the index [n] it was given: the removal
    returns, the counters are those before the addition, and so are the
    cells of the [n] molecules and of their atoms in every array. *)
Theorem removeMolecule_after_addMolecule (given : list Vector2.t)
    (position velocity : Vector2.t) (rotationRate : float) (n : Z) (d : t) :
  numberOfAtoms d = Zpos (atomsPerMolecule d) * n ->
  0 <= n ->
  numberOfAtoms d <> MAX_NUM_ATOMS ->
  Zpos (atomsPerMolecule d) <= Z.of_nat (length given) ->
  let d1 := (addMolecule MAX_NUM_ATOMS given position velocity rotationRate d).2 in
  let d2 := (removeMolecule n d1).2 in
  (removeMolecule n d1).1 = Normal tt
  /\ numberOfAtoms d2 = numberOfAtoms d
  /\ numberOfSafeMolecules d2 = numberOfSafeMolecules d
  /\ atomsPerMolecule d2 = atomsPerMolecule d
  /\ (forall i, i < n -> moleculeRecord d2 (key i) = moleculeRecord d (key i))
  /\ (forall q, q < numberOfAtoms d ->
        get (atomPositions d2) (key q) = get (atomPositions d) (key q)).
Proof.
  intros Hn Hpos Hfree Hgiven d1 d2.
  destruct (addMolecule_counters MAX_NUM_ATOMS given position velocity rotationRate d
              Hgiven) as (Hp & Hs & Ha).
  fold d1 in Hp, Hs, Ha.
  destruct (decide (numberOfAtoms d = MAX_NUM_ATOMS)) as [|_]; [contradiction|].
  destruct (addMolecule_cells given position velocity rotationRate d Hfree Hgiven)
    as (Hrecords & Hatoms).
  fold d1 in Hrecords, Hatoms.
  assert (Hn1 : numberOfAtoms d1 = Zpos (atomsPerMolecule d1) * (n + 1)).
  { rewrite Hp, Ha, Hn. lia. }
  assert (Hremove :
    removeMolecule n d1
    = (Normal tt,
       with_numberOfAtoms (numberOfAtoms d1 - Zpos (atomsPerMolecule d1)) d1)).
  { rewrite (removeMolecule_cases n (n + 1) d1 Hn1).
    destruct (decide (n + 1 <= n)) as [|_]; [lia|].
    destruct (decide (n < n + 1 - 1)) as [|_]; [lia|]. reflexivity. }
  subst d2. rewrite Hremove. simpl.
  split; [reflexivity|]. split; [rewrite Ha, Hp; lia|].
  split; [exact Hs|]. split; [exact Hp|]. split.
  - intros i Hi.
    change (moleculeRecord
              (with_numberOfAtoms (numberOfAtoms d1 - Zpos (atomsPerMolecule d1)) d1)
              (key i))
      with (moleculeRecord d1 (key i)).
    apply Hrecords. unfold getNumberOfMolecules. rewrite Hn, key_quotient.
    intros E. apply Z2Qc_inj in E. lia.
  - intros q Hq. apply Hatoms. exact Hq.
Qed.

End AddThenRemove.

End RemoveMolecule.

(** ** The temperature of the data set *)

Section Temperature.

Import Js MoleculeForceAndMotionDataSet DataSetViews.
Local Open Scope Z_scope.

Variable Math_pow : float -> float -> float.

Lemma counter_values_member (fuel : nat) (a : Z) (bound : Qc) (i : Z) :
  Qceiling (this bound) - a <= Z.of_nat fuel ->
  i ∈ counter_values fuel a bound 1 <-> a <= i /\ (key i < bound)%Qc.
Proof.
  revert a. induction fuel as [|fuel IH]; intros a Hfuel; simpl.
  - split; [intros H; inversion H|].
    intros [Hai Hlt]. exfalso.
    unfold Qclt, key, Qc_of_Z in Hlt. simpl in Hlt.
    pose proof (Qle_ceiling (this bound)) as Hceil.
    assert (Hle : (inject_Z (Qceiling (this bound)) <= inject_Z i)%Q).
    { rewrite <- Zle_Qle. lia. }
    apply (Qlt_irrefl (inject_Z i)).
    apply (Qlt_le_trans _ (this bound)); [exact Hlt|].
    apply (Qle_trans _ (inject_Z (Qceiling (this bound)))); assumption.
  - destruct (decide (key a < bound)%Qc) as [Ha|Ha].
    + rewrite elem_of_cons, IH by lia. split.
      * intros [->|[Hai Hlt]]; [split; [lia | exact Ha] | split; [lia | exact Hlt]].
      * intros [Hai Hlt]. destruct (decide (i = a)) as [->|Hne]; [left; reflexivity|].
        right. split; [lia | exact Hlt].
    + split; [intros H; inversion H|].
      intros [Hai Hlt]. exfalso. apply Ha.
      apply (Qcle_lt_trans _ (key i)); [|exact Hlt].
      apply (proj1 (Z2Qc_inj_le _ _)). exact Hai.
Qed.

(** The indices of a loop that counts by one from 0. *)
Lemma for_range_member (bound : Qc) (i : Z) :
  i ∈ for_range 0 bound 1 <-> 0 <= i /\ (key i < bound)%Qc.
Proof. unfold for_range. apply counter_values_member. lia. Qed.

Lemma numberOfMolecules_monatomic (d : t) :
  atomsPerMolecule d = 1%positive -> getNumberOfMolecules d = key (numberOfAtoms d).
Proof.
  intros H. unfold getNumberOfMolecules. rewrite H.
  change (key 1) with (Qc_of_Z 1). rewrite Z2Qc_inj_1. apply (right_id 1%Qc Qcdiv).
Qed.

Lemma sumTranslationalEnergy_ends (d : t) (indices : list Z) (sum : float) :
  ((forall i, i ∈ indices -> is_Some (get (moleculeVelocities d) (key i))) ->
   exists total, sumTranslationalEnergy d indices sum = Normal total)
  /\ ((exists i, i ∈ indices /\ get (moleculeVelocities d) (key i) = None) ->
      sumTranslationalEnergy d indices sum = Throw TypeError).
Proof.
  revert sum. induction indices as [|i rest IH]; intros sum; simpl.
  - split; [intros _; eexists; reflexivity | intros (i & Hi & _); inversion Hi].
  - destruct (get (moleculeVelocities d) (key i)) as [v|] eqn:Hv.
    + split.
      * intros Hall. apply IH. intros j Hj. apply Hall. right. exact Hj.
      * intros (j & Hj & Hnone). apply IH.
        apply elem_of_cons in Hj as [->|Hj]; [congruence|]. exists j. split; assumption.
    + split; [|reflexivity].
      intros Hall. destruct (Hall i) as [v Hv']; [left|]. congruence.
Qed.

Lemma sumMoleculeEnergy_ends (d : t) (indices : list Z) (sum1 sum2 : float) :
  ((forall i, i ∈ indices -> is_Some (get (moleculeVelocities d) (key i))) ->
   exists totals, sumMoleculeEnergy Math_pow d indices sum1 sum2 = Normal totals)
  /\ ((exists i, i ∈ indices /\ get (moleculeVelocities d) (key i) = None) ->
      sumMoleculeEnergy Math_pow d indices sum1 sum2 = Throw TypeError).
Proof.
  revert sum1 sum2. induction indices as [|i rest IH]; intros sum1 sum2; simpl.
  - split; [intros _; eexists; reflexivity | intros (i & Hi & _); inversion Hi].
  - destruct (get (moleculeVelocities d) (key i)) as [v|] eqn:Hv.
    + split.
      * intros Hall. apply IH. intros j Hj. apply Hall. right. exact Hj.
      * intros (j & Hj & Hnone). apply IH.
        apply elem_of_cons in Hj as [->|Hj]; [congruence|]. exists j. split; assumption.
    + split; [|reflexivity].
      intros Hall. destruct (Hall i) as [v Hv']; [left|]. congruence.
Qed.

(** X6.  [calculateTemperatureFromKineticEnergy] returns a number when
    every molecule below [numberOfMolecules] has a velocity, and raises a
    [TypeError] when one of them has none.  A rotation rate that is missing
    does not make it raise. *)
Theorem calculateTemperature_ends (d : t) :
  (populated (moleculeVelocities d) d ->
   exists temperature,
     calculateTemperatureFromKineticEnergy Math_pow d = Normal temperature)
  /\ ((exists i, 0 <= i /\ (key i < getNumberOfMolecules d)%Qc
                 /\ get (moleculeVelocities d) (key i) = None) ->
      calculateTemperatureFromKineticEnergy Math_pow d = Throw TypeError).
Proof.
  unfold calculateTemperatureFromKineticEnergy, populated.
  destruct (decide (atomsPerMolecule d = 1%positive)) as [Hone|Hmore].
  - rewrite (numberOfMolecules_monatomic d Hone).
    destruct (sumTranslationalEnergy_ends d (for_range 0 (key (numberOfAtoms d)) 1) 0%float)
      as [Hok Hraise].
    split.
    + intros Hall. destruct Hok as [total ->]; [|eexists; reflexivity].
      intros i Hi. apply for_range_member in Hi as [H0 Hlt]. apply Hall; assumption.
    + intros (i & H0 & Hlt & Hnone). rewrite Hraise; [reflexivity|].
      exists i. split; [apply for_range_member; split; assumption | exact Hnone].
  - destruct (sumMoleculeEnergy_ends d (for_range 0 (getNumberOfMolecules d) 1)
                0%float 0%float) as [Hok Hraise].
    split.
    + intros Hall. destruct Hok as [[total1 total2] ->]; [|eexists; reflexivity].
      intros i Hi. apply for_range_member in Hi as [H0 Hlt]. apply Hall; assumption.
    + intros (i & H0 & Hlt & Hnone). rewrite Hraise; [reflexivity|].
      exists i. split; [apply for_range_member; split; assumption | exact Hnone].
Qed.

Lemma reverseVelocities_get (d : t) (k : Qc) :
  get (moleculeVelocities (reverseVelocities d)) k
  = (fun v => Vector2.make (- Vector2.x v) (- Vector2.y v))%float
      <$> get (moleculeVelocities d) k.
Proof.
  unfold reverseVelocities, get. simpl.
  apply (lookup_fmap (M := gmap Qc)).
Qed.

Lemma sumTranslationalEnergy_reversed (d : t) (indices : list Z) (sum : float) :
  sumTranslationalEnergy (reverseVelocities d) indices sum
  = sumTranslationalEnergy d indices sum.
Proof.
  revert sum. induction indices as [|i rest IH]; intros sum;
    cbn [sumTranslationalEnergy]; [reflexivity|].
  rewrite reverseVelocities_get.
  destruct (get (moleculeVelocities d) (key i)) as [v|]; simpl; [|reflexivity].
  rewrite !mul_opp_opp. apply IH.
Qed.

Lemma sumMoleculeEnergy_reversed (d : t) (indices : list Z) (sum1 sum2 : float) :
  (forall x, Math_pow (- x) 2 = Math_pow x 2) ->
  sumMoleculeEnergy Math_pow (reverseVelocities d) indices sum1 sum2
  = sumMoleculeEnergy Math_pow d indices sum1 sum2.
Proof.
  intros Heven. revert sum1 sum2.
  induction indices as [|i rest IH]; intros sum1 sum2;
    cbn [sumMoleculeEnergy]; [reflexivity|].
  rewrite reverseVelocities_get.
  destruct (get (moleculeVelocities d) (key i)) as [v|]; simpl; [|reflexivity].
  rewrite !Heven. apply IH.
Qed.

(** X7.  The temperature does not change when every velocity is turned by
    180 degrees: for a monatomic data set always, bit for bit, since the
    products [x * x] and [y * y] do not see the signs; for the others
    provided [Math.pow] gives the same square for a number and its opposite. *)
Theorem calculateTemperature_reversed (d : t) :
  atomsPerMolecule d = 1%positive \/ (forall x, Math_pow (- x) 2 = Math_pow x 2)%float ->
  calculateTemperatureFromKineticEnergy Math_pow (reverseVelocities d)
  = calculateTemperatureFromKineticEnergy Math_pow d.
Proof.
  intros Hcase. unfold calculateTemperatureFromKineticEnergy.
  change (atomsPerMolecule (reverseVelocities d)) with (atomsPerMolecule d).
  change (numberOfAtoms (reverseVelocities d)) with (numberOfAtoms d).
  change (getNumberOfMolecules (reverseVelocities d)) with (getNumberOfMolecules d).
  destruct (decide (atomsPerMolecule d = 1%positive)) as [Hone|Hmore].
  - rewrite sumTranslationalEnergy_reversed. reflexivity.
  - destruct Hcase as [Hone|Heven]; [contradiction|].
    rewrite (sumMoleculeEnergy_reversed d _ _ _ Heven). reflexivity.
Qed.

End Temperature.

(** ** The wall force and the pressure *)

Section WallForce.

Import Js AbstractVerletAlgorithm.
Local Open Scope float_scope.

Variable Math_pow : float -> float -> float.
Variable distance : Vector2.t -> Vector2.t -> float.

(** X8.  [calculateWallForce] for a particle that is within the threshold
    distance of no wall: the force passed in comes back as it was (it is not
    set to zero), and neither the potential energy nor the model changes. *)
Theorem calculateWallForce_far_from_walls (position resultantForce : Vector2.t)
    (containerWidth containerHeight : float) (self : t)
    (model : MultipleParticleModel.t) :
  (Vector2.x position <? WALL_DISTANCE_THRESHOLD) = false ->
  (containerWidth - Vector2.x position <? WALL_DISTANCE_THRESHOLD) = false ->
  (Vector2.y position <? WALL_DISTANCE_THRESHOLD) = false ->
  (containerHeight - Vector2.y position <? WALL_DISTANCE_THRESHOLD) = false ->
  Verlet.calculateWallForce Math_pow (Some position) containerWidth containerHeight
    (Some resultantForce) self model
  = (Some resultantForce, self, model).
Proof.
  intros Hleft Hright Hbottom Htop.
  unfold Verlet.calculateWallForce, Verlet.horizontalWallForce.
  rewrite Hleft, Hright.
  destruct (Vector2.y position <? MultipleParticleModel.normalizedContainerWidth model);
    unfold Verlet.verticalWallForce; rewrite Hbottom, Htop; reflexivity.
Qed.

(** The model after one call of the calculator. *)
Lemma step_model (state : t * MultipleParticleModel.t) (c : CalculatorRun.call) :
  let state' := CalculatorRun.step Math_pow distance state c in
  (MultipleParticleModel.isExploded state.2 = true ->
   MultipleParticleModel.isExploded state'.2 = true)
  /\ (MultipleParticleModel.isExploded state.2 = true ->
      forall f, c = CalculatorRun.UpdatePressure f -> pressure state'.1 = 0).
Proof.
  destruct state as [self model]. destruct c as [position cw ch force| |f]; simpl.
  - split; [|intros _ f Hf; discriminate Hf].
    intros Hexploded. unfold Verlet.calculateWallForce.
    destruct force as [force|], position as [pos|]; simpl; try exact Hexploded.
    destruct (Verlet.horizontalWallForce _ _ _ _ _ _ _) as [[xPos1 force1] self1].
    unfold Verlet.verticalWallForce. rewrite Hexploded. simpl.
    rewrite !andb_false_r.
    repeat match goal with
           | |- context [if ?c then _ else _] => destruct c; simpl
           end; exact Hexploded.
  - split; [|intros _ f Hf; discriminate Hf].
    intros Hexploded. unfold Verlet.updateMoleculeSafety.
    destruct (MultipleParticleModel.getMoleculeDataSetRef model) as [d0|];
      [|exact Hexploded].
    destruct (Verlet.updateSafetyOfDataSet distance d0) as [c d1]. exact Hexploded.
  - unfold Verlet.updatePressure. split.
    + intros Hexploded. rewrite Hexploded. exact Hexploded.
    + intros Hexploded g _. rewrite Hexploded. reflexivity.
Qed.

(** X9.  The exploded state is never left by the calculator: after any run
    of calls of [calculateWallForce], [updateMoleculeSafety] and
    [updatePressure] on an exploded model the model is exploded, and if the
    last call of the run is [updatePressure] the pressure is 0. *)
Theorem exploded_is_absorbing (calls : list CalculatorRun.call)
    (self : t) (model : MultipleParticleModel.t) :
  MultipleParticleModel.isExploded model = true ->
  MultipleParticleModel.isExploded
    (CalculatorRun.run Math_pow distance calls (self, model)).2 = true
  /\ (forall earlier f,
        calls = earlier ++ [CalculatorRun.UpdatePressure f] ->
        pressure (CalculatorRun.run Math_pow distance calls (self, model)).1 = 0).
Proof.
  intros Hexploded.
  assert (Hall : forall calls state,
             MultipleParticleModel.isExploded state.2 = true ->
             MultipleParticleModel.isExploded
               (CalculatorRun.run Math_pow distance calls state).2 = true).
  { clear. intros calls. induction calls as [|c rest IH]; intros state H; simpl.
    - exact H.
    - apply IH. apply (step_model state c). exact H. }
  split; [apply (Hall calls (self, model) Hexploded)|].
  intros earlier f ->. unfold CalculatorRun.run. rewrite foldl_app. simpl.
  apply (proj2 (step_model _ (CalculatorRun.UpdatePressure f))) with (f := f);
    [|reflexivity].
  apply (Hall earlier (self, model) Hexploded).
Qed.

(** X10.  After the explosion the two side walls are not treated alike.  A
    particle beyond the right wall, below [normalizedContainerWidth] in
    height and away from the left wall: the branch sets the local [xPos] to
    infinity and leaves [distance] negative, so the X component of the force
    is computed from the negative distance, [-(48 / d^13) + 24 / d^7], and the
    potential energy grows by the wall term at that distance; nothing is done
    in the Y direction and the model is as it was. *)
Theorem calculateWallForce_beyond_right_wall (position resultantForce : Vector2.t)
    (containerWidth containerHeight : float) (self : t)
    (model : MultipleParticleModel.t) :
  MultipleParticleModel.isExploded model = true ->
  (Vector2.y position <? MultipleParticleModel.normalizedContainerWidth model) = true ->
  (Vector2.x position <? WALL_DISTANCE_THRESHOLD) = false ->
  (containerWidth - Vector2.x position <? 0) = true ->
  let d := containerWidth - Vector2.x position in
  Verlet.calculateWallForce Math_pow (Some position) containerWidth containerHeight
    (Some resultantForce) self model
  = (Some (Vector2.setX resultantForce
             (- (48 / Math_pow d 13) + (24 / Math_pow d 7))),
     with_potentialEnergy (potentialEnergy self + Verlet.wallPotential Math_pow d) self,
     model).
Proof.
  intros Hexploded Hlow Hleft Hbeyond d. fold d in Hbeyond.
  assert (Hinfinity : (infinity <? containerWidth) = false).
  { rewrite FloatAxioms.ltb_spec. unfold SFltb.
    change (Prim2SF infinity) with (S754_infinity false).
    destruct (Prim2SF containerWidth) as [s|s| |s m e]; simpl; try reflexivity;
      destruct s; reflexivity. }
  unfold Verlet.calculateWallForce, Verlet.horizontalWallForce,
    Verlet.verticalWallForce.
  rewrite Hlow, Hleft. fold d.
  rewrite (ltb_through_zero d WALL_DISTANCE_THRESHOLD Hbeyond wall_threshold_positive).
  rewrite (ltb_through_zero d (WALL_DISTANCE_THRESHOLD * 0.8) Hbeyond
             wall_minimum_positive).
  rewrite Hbeyond, Hexploded.
  destruct (Vector2.y position <? WALL_DISTANCE_THRESHOLD),
    (Vector2.y position <? WALL_DISTANCE_THRESHOLD * 0.8),
    (Vector2.y position <? 0),
    (containerHeight - Vector2.y position <? WALL_DISTANCE_THRESHOLD);
    cbn [andb negb orb fst snd]; rewrite ?Hexploded, ?Hinfinity;
    cbn [andb negb orb]; reflexivity.
Qed.

End WallForce.

(** ** The promotion of molecules to safe *)

Section Safety.

Import Js MoleculeForceAndMotionDataSet DataSetViews AbstractVerletAlgorithm.
Local Open Scope Z_scope.

Variable distance : Vector2.t -> Vector2.t -> float.

(** Molecules [i] and [j] have positions, not closer than the safe distance. *)
Let apart (d : MoleculeForceAndMotionDataSet.t) (i j : Z) : Prop :=
  exists pi pj,
    get (moleculeCenterOfMassPositions d) (key i) = Some pi
    /\ get (moleculeCenterOfMassPositions d) (key j) = Some pj
    /\ (distance pi pj <? SAFE_INTER_MOLECULE_DISTANCE)%float = false.

Lemma swap_get {A} (a : array A) (p q k : Qc) :
  get (swap a p q) k
  = if decide (k = q) then get a p
    else if decide (k = p) then get a q
    else get a k.
Proof.
  unfold swap. destruct (decide (k = q)) as [->|Hq].
  - apply get_set_eq.
  - rewrite get_set_ne by congruence.
    destruct (decide (k = p)) as [->|Hp].
    + apply get_set_eq.
    + apply get_set_ne. congruence.
Qed.

Lemma key_below_ceiling (a : Z) (bound : Qc) :
  (key a < bound)%Qc <-> a < Qceiling (this bound).
Proof.
  unfold Qclt, key, Qc_of_Z. simpl. split.
  - intros Hlt. rewrite Zlt_Qlt.
    apply (Qlt_le_trans _ (this bound)); [exact Hlt | apply Qle_ceiling].
  - intros Hlt.
    apply (Qle_lt_trans _ (inject_Z (Qceiling (this bound) - 1))).
    + rewrite <- Zle_Qle. lia.
    + apply Qceiling_lt.
Qed.

Lemma counter_values_ceiling (fuel : nat) (a : Z) (bound : Qc) :
  Z.to_nat (Qceiling (this bound) - a) = fuel ->
  counter_values fuel a bound 1 = seqZ a (Qceiling (this bound) - a).
Proof.
  revert a. induction fuel as [|fuel IH]; intros a Hfuel; simpl.
  - rewrite seqZ_nil; [reflexivity | lia].
  - destruct (decide (key a < bound)%Qc) as [_|Hge].
    + rewrite (seqZ_cons a) by lia.
      rewrite (IH (a + 1)) by lia.
      replace (Z.succ a) with (a + 1) by lia.
      replace (Z.pred (Qceiling (this bound) - a))
        with (Qceiling (this bound) - (a + 1)) by lia.
      reflexivity.
    + exfalso. apply Hge. apply key_below_ceiling. lia.
Qed.

(** A loop that counts by one, whatever its bound. *)
Lemma for_range_ceiling (a : Z) (bound : Qc) :
  for_range a bound 1 = seqZ a (Qceiling (this bound) - a).
Proof. unfold for_range. apply counter_values_ceiling. reflexivity. Qed.

Lemma tooCloseToSafeMolecule_false (positions : array Vector2.t) (i : Z)
    (indices : list Z) :
  Verlet.tooCloseToSafeMolecule distance positions i indices = Normal false ->
  forall j, j ∈ indices ->
    exists pi pj,
      get positions (key i) = Some pi /\ get positions (key j) = Some pj
      /\ (distance pi pj <? SAFE_INTER_MOLECULE_DISTANCE)%float = false.
Proof.
  induction indices as [|j0 rest IH]; simpl; intros Hrun j Hj.
  - inversion Hj.
  - destruct (get positions (key i)) as [pi|] eqn:Hi; [|discriminate Hrun].
    destruct (get positions (key j0)) as [pj0|] eqn:Hj0; [|discriminate Hrun].
    destruct (distance pi pj0 <? SAFE_INTER_MOLECULE_DISTANCE)%float eqn:Hd;
      [discriminate Hrun|].
    apply elem_of_cons in Hj as [->|Hj].
    + exists pi, pj0. repeat split; assumption.
    + destruct (IH Hrun j Hj) as (pi' & pj & Hpi & Hpj & Hfar).
      exists pi', pj. repeat split; assumption.
Qed.

Lemma swapAtoms_frame (atoms : array Vector2.t) (x y : Z) (l : list Z) (k : Qc) :
  (forall j, j ∈ l -> k <> key (x + j) /\ k <> key (y + j)) ->
  get (foldl (fun a j => swap a (key (x + j)) (key (y + j))) atoms l) k = get atoms k.
Proof.
  revert atoms. induction l as [|j rest IH]; intros atoms Hk; simpl.
  - reflexivity.
  - rewrite IH by (intros j' Hj'; apply Hk; right; exact Hj').
    rewrite swap_get. destruct (Hk j) as [Hx Hy]; [left|].
    destruct (decide (k = key (y + j))); [contradiction|].
    destruct (decide (k = key (x + j))); [contradiction|]. reflexivity.
Qed.

(** The swap touches the cells of the two molecules only. *)
Lemma swapWithFirstUnsafe_frame (n0 i : Z) (d : MoleculeForceAndMotionDataSet.t) :
  let d' := Verlet.swapWithFirstUnsafe n0 i d in
  (forall k, k <> key n0 -> k <> key i -> moleculeRecord d' k = moleculeRecord d k)
  /\ get (moleculeCenterOfMassPositions d') (key n0)
     = get (moleculeCenterOfMassPositions d) (key i)
  /\ (forall q, q < n0 * Zpos (atomsPerMolecule d) -> q < i * Zpos (atomsPerMolecule d) ->
        get (atomPositions d') (key q) = get (atomPositions d) (key q))
  /\ atomsPerMolecule d' = atomsPerMolecule d
  /\ numberOfSafeMolecules d' = numberOfSafeMolecules d.
Proof.
  unfold Verlet.swapWithFirstUnsafe, getAtomsPerMolecule. simpl.
  split; [|split; [|split; [|split; reflexivity]]].
  - intros k Hn Hi. unfold moleculeRecord. simpl.
    rewrite !swap_get.
    destruct (decide (k = key i)); [contradiction|].
    destruct (decide (k = key n0)); [contradiction|]. reflexivity.
  - rewrite swap_get.
    destruct (decide (key n0 = key i)) as [E|_]; [rewrite E|]; [reflexivity|].
    destruct (decide (key n0 = key n0)); [reflexivity | contradiction].
  - intros q Hqn Hqi. rewrite for_range_unit. apply swapAtoms_frame.
    intros j Hj. apply elem_of_seqZ in Hj.
    split; intros E; apply Z2Qc_inj in E; nia.
Qed.

Lemma moleculeRecord_position (d d' : MoleculeForceAndMotionDataSet.t) (k k' : Qc) :
  moleculeRecord d k = moleculeRecord d' k' ->
  get (moleculeCenterOfMassPositions d) k = get (moleculeCenterOfMassPositions d') k'.
Proof. unfold moleculeRecord. intros H. injection H. auto. Qed.

(** The outer loop of [updateMoleculeSafety], from an index at or behind
    the safe molecules on. *)
Lemma promoteSafeMolecules_spec (len : nat) :
  forall (a n0 : Z) (d : MoleculeForceAndMotionDataSet.t),
    n0 <= a ->
    numberOfSafeMolecules d = n0 ->
    let d' := (Verlet.promoteSafeMolecules distance (seqZ a (Z.of_nat len)) n0 d).2 in
    (forall j, j < n0 -> moleculeRecord d' (key j) = moleculeRecord d (key j))
    /\ (forall q, q < n0 * Zpos (atomsPerMolecule d) ->
          get (atomPositions d') (key q) = get (atomPositions d) (key q))
    /\ atomsPerMolecule d' = atomsPerMolecule d
    /\ n0 <= numberOfSafeMolecules d'
    /\ (forall i j, n0 <= i < numberOfSafeMolecules d' -> 0 <= j < i -> apart d' i j).
Proof.
  induction len as [|len IH]; intros a n0 d Hle Hn0.
  - simpl. repeat split; try reflexivity; lia.
  - rewrite Nat2Z.inj_succ, seqZ_cons by lia.
    replace (Z.pred (Z.succ (Z.of_nat len))) with (Z.of_nat len) by lia.
    replace (Z.succ a) with (a + 1) by lia.
    cbn [Verlet.promoteSafeMolecules].
    rewrite for_range_unit.
    destruct (Verlet.tooCloseToSafeMolecule distance
                (moleculeCenterOfMassPositions d) a (seqZ 0 (n0 - 0)))
      as [[|]|e] eqn:Hclose.
    + apply (IH (a + 1) n0 d); [lia | exact Hn0].
    + set (d1 := if decide (a <> n0)
                 then Verlet.swapWithFirstUnsafe n0 a d else d).
      assert (Hd1 :
        (forall k, k <> key n0 -> k <> key a -> moleculeRecord d1 k = moleculeRecord d k)
        /\ get (moleculeCenterOfMassPositions d1) (key n0)
           = get (moleculeCenterOfMassPositions d) (key a)
        /\ (forall q, q < n0 * Zpos (atomsPerMolecule d) ->
              get (atomPositions d1) (key q) = get (atomPositions d) (key q))
        /\ atomsPerMolecule d1 = atomsPerMolecule d).
      { subst d1. destruct (decide (a <> n0)) as [Hne|Heq].
        - destruct (swapWithFirstUnsafe_frame n0 a d) as (H1 & H2 & H3 & H4 & _).
          repeat split; try assumption. intros q Hq. apply H3; [exact Hq | nia].
        - assert (a = n0) by lia. subst a. repeat split. }
      destruct Hd1 as (Hframe & Hfirst & Hatoms & Hapm).
      set (d2 := with_numberOfSafeMolecules (n0 + 1) d1).
      destruct (IH (a + 1) (n0 + 1) d2) as (Hprefix & Hatoms' & Hapm' & Hlow & Hfar);
        [lia | reflexivity |].
      set (d' := (Verlet.promoteSafeMolecules distance (seqZ (a + 1) (Z.of_nat len))
                    (n0 + 1) d2).2) in *.
      change (atomsPerMolecule d2) with (atomsPerMolecule d1) in Hatoms', Hapm'.
      rewrite Hapm in Hatoms', Hapm'.
      split; [|split; [|split; [exact Hapm'|split; [lia|]]]].
      * intros j Hj. rewrite Hprefix by lia.
        change (moleculeRecord d2 (key j)) with (moleculeRecord d1 (key j)).
        apply Hframe; intros E; apply Z2Qc_inj in E; lia.
      * intros q Hq. rewrite Hatoms' by nia.
        change (atomPositions d2) with (atomPositions d1). apply Hatoms. exact Hq.
      * intros i j Hi Hj. destruct (decide (i = n0)) as [->|Hne].
        -- destruct (tooCloseToSafeMolecule_false _ _ _ Hclose j)
             as (pa & pj & Hpa & Hpj & Hapart).
           { apply elem_of_seqZ. lia. }
           exists pa, pj. split; [|split; [|exact Hapart]].
           ++ rewrite (moleculeRecord_position _ _ _ _ (Hprefix n0 ltac:(lia))).
              change (moleculeCenterOfMassPositions d2)
                with (moleculeCenterOfMassPositions d1).
              rewrite Hfirst. exact Hpa.
           ++ rewrite (moleculeRecord_position _ _ _ _ (Hprefix j ltac:(lia))).
              change (moleculeCenterOfMassPositions d2)
                with (moleculeCenterOfMassPositions d1).
              rewrite (moleculeRecord_position _ _ _ _
                         (Hframe (key j)
                            ltac:(intros E; apply Z2Qc_inj in E; lia)
                            ltac:(intros E; apply Z2Qc_inj in E; lia))).
              exact Hpj.
        -- apply Hfar; lia.
    + simpl. repeat split; try reflexivity; lia.
Qed.

(** X11.  [updateMoleculeSafety] leaves the molecules that were safe where
    they are: for every index below the old [numberOfSafeMolecules] the cells
    of all per-molecule arrays, and the cells of its atoms, are as before;
    and [numberOfSafeMolecules] does not go down.  This holds however the
    call ends. *)
Theorem updateMoleculeSafety_keeps_safe_prefix (d : MoleculeForceAndMotionDataSet.t) :
  let d' := (Verlet.updateSafetyOfDataSet distance d).2 in
  (forall j, j < numberOfSafeMolecules d ->
     moleculeRecord d' (key j) = moleculeRecord d (key j))
  /\ (forall q, q < numberOfSafeMolecules d * Zpos (atomsPerMolecule d) ->
        get (atomPositions d') (key q) = get (atomPositions d) (key q))
  /\ numberOfSafeMolecules d <= numberOfSafeMolecules d'.
Proof.
  unfold Verlet.updateSafetyOfDataSet.
  destruct (strict_eq (numberOfMolecules d) (key (numberOfSafeMolecules d))).
  - simpl. repeat split; lia.
  - assert (Hrounds : exists len : nat,
              for_range_to (numberOfSafeMolecules d) (numberOfMolecules d) 1
              = seqZ (numberOfSafeMolecules d) (Z.of_nat len)).
    { unfold for_range_to. destruct (numberOfMolecules d) as [bound|].
      - rewrite for_range_ceiling.
        set (len := Qceiling (this bound) - numberOfSafeMolecules d).
        destruct (Z_lt_le_dec len 0) as [Hneg|Hpos].
        + exists 0%nat. rewrite seqZ_nil by lia. reflexivity.
        + exists (Z.to_nat len). rewrite Z2Nat.id by exact Hpos. reflexivity.
      - exists 0%nat. reflexivity. }
    destruct Hrounds as [len ->].
    destruct (promoteSafeMolecules_spec len (numberOfSafeMolecules d)
                (numberOfSafeMolecules d) d (Z.le_refl _) eq_refl)
      as (Hprefix & Hatoms & _ & Hlow & _).
    repeat split; assumption.
Qed.

(** X12.  [updateMoleculeSafety] promotes no molecule.  The bound of its
    outer loop is the property [numberOfMolecules] of the data set, which the
    data set never has, so no round runs: the data set after the call,
    [numberOfSafeMolecules] included, is the data set before it, whatever the
    positions of the molecules, and neither the calculator nor the model has
    changed. *)
Theorem updateMoleculeSafety_promotes_nothing (self : AbstractVerletAlgorithm.t)
    (model : MultipleParticleModel.t) :
  (forall d, (Verlet.updateSafetyOfDataSet distance d).2 = d)
  /\ (Verlet.updateMoleculeSafety distance self model).1.2 = self
  /\ (Verlet.updateMoleculeSafety distance self model).2 = model.
Proof.
  split; [reflexivity|].
  unfold Verlet.updateMoleculeSafety, MultipleParticleModel.getMoleculeDataSetRef.
  destruct model as [iso andersen calculator [d|] ? ? ? ? ? ? ? ? ?];
    split; reflexivity.
Qed.

End Safety.

(** Three atoms on a line, one and five diameters from the first: the third
    is far enough from the others to be safe, yet after [updateMoleculeSafety]
    the data set counts no safe molecule. *)
Example updateMoleculeSafety_three_atoms :
  MoleculeForceAndMotionDataSet.numberOfAtoms SampleMore.threeAtomDataSet = 3%Z
  /\ MoleculeForceAndMotionDataSet.numberOfSafeMolecules
       (Verlet.updateSafetyOfDataSet Sample.distance SampleMore.threeAtomDataSet).2 = 0%Z.
Proof. split; reflexivity. Qed.

(** ** More of the model *)

Section ModelMoreProperties.

Import Js MultipleParticleModel.
Local Open Scope float_scope.

Variable isokineticAdjustTemperature andersenAdjustTemperature :
  Thermostat.t -> MoleculeForceAndMotionDataSet.t -> MoleculeForceAndMotionDataSet.t.

(** X14.  [particlesNearTop] never returns [true].  The bound of its loop
    is the property [numberOfMolecules] of the data set, which the data set
    never has, so no position is looked at: on a model with a data set the
    method returns [false], wherever the molecules are, and on a model without
    one it raises a [TypeError]. *)
Theorem particlesNearTop_never_true (m : t) :
  Model.particlesNearTop m <> Normal true
  /\ (forall d, moleculeDataSet m = Some d -> Model.particlesNearTop m = Normal false)
  /\ (moleculeDataSet m = None -> Model.particlesNearTop m = Throw TypeError).
Proof.
  unfold Model.particlesNearTop.
  destruct (moleculeDataSet m) as [d|].
  - assert (Hrounds : for_range_to 0 (MoleculeForceAndMotionDataSet.numberOfMolecules d) 1
                      = []) by reflexivity.
    rewrite Hrounds. simpl.
    split; [discriminate|]. split; [reflexivity | discriminate].
  - split; [discriminate|]. split; [discriminate | reflexivity].
Qed.

(** X13.  [runThermostat] while the height of the container is changing
    ([heightChangeCounter] is not 0), on a model that is not exploded and has
    its calculator: the test calls [particlesNearTop()] without a receiver,
    which raises a [ReferenceError]; no thermostat runs, whatever the
    thermostat type, and the model is as it was. *)
Theorem runThermostat_while_height_changes (m : t)
    (calculator : AbstractVerletAlgorithm.t) :
  isExploded m = false ->
  moleculeForceAndMotionCalculator m = Some calculator ->
  heightChangeCounter m <> 0%Z ->
  Model.runThermostat isokineticAdjustTemperature andersenAdjustTemperature m
  = (Throw ReferenceError, m).
Proof.
  intros Hintact Hcalculator Hchanging.
  unfold Model.runThermostat. rewrite Hintact, Hcalculator.
  destruct (decide (heightChangeCounter m <> 0%Z)) as [_|Hsteady];
    [reflexivity | contradiction].
Qed.

(** X15.  [runThermostat] on a model that is not exploded, with its
    calculator and both thermostats in place, while the height of the
    container is not changing ([heightChangeCounter] is 0): the thermostat
    type selects what runs.  [NO_THERMOSTAT] runs none, [ISOKINETIC_THERMOSTAT]
    the isokinetic one, [ANDERSEN_THERMOSTAT] the Andersen one, and
    [ADAPTIVE_THERMOSTAT] exactly one of the two: the isokinetic one if heating
    or cooling is on, or the measured temperature is more than 0.15 from the
    set point, or the set point is above [LIQUID_TEMPERATURE] (0.34), and the
    Andersen one otherwise. *)
Theorem runThermostat_selection (m : t) (calculator : AbstractVerletAlgorithm.t)
    (isokinetic andersen : Thermostat.t) :
  isExploded m = false ->
  moleculeForceAndMotionCalculator m = Some calculator ->
  isoKineticThermostat m = Some isokinetic ->
  andersenThermostat m = Some andersen ->
  heightChangeCounter m = 0%Z ->
  let runs :=
    Model.thermostatsRun
      (Model.runThermostat isokineticAdjustTemperature andersenAdjustTemperature m).1 in
  let temperatureIsChanging :=
    Num.strict_neq (heatingCoolingAmount m) 0
    || (temperatureSetPoint m + 0.15 <? AbstractVerletAlgorithm.temperature calculator)
    || (AbstractVerletAlgorithm.temperature calculator <? temperatureSetPoint m - 0.15) in
  (thermostatType m = NO_THERMOSTAT -> runs = [])
  /\ (thermostatType m = ISOKINETIC_THERMOSTAT -> runs = [Thermostat.Isokinetic])
  /\ (thermostatType m = ANDERSEN_THERMOSTAT -> runs = [Thermostat.Andersen])
  /\ (thermostatType m = ADAPTIVE_THERMOSTAT ->
      runs = [if temperatureIsChanging || (0.34 <? temperatureSetPoint m)
              then Thermostat.Isokinetic else Thermostat.Andersen]).
Proof.
  intros Hintact Hcalculator Hiso Handersen Hsteady runs changing. subst runs.
  unfold Model.runThermostat. rewrite Hintact, Hcalculator, Hsteady.
  destruct (decide (0 <> 0)%Z) as [Hne|_]; [contradiction|].
  change TEMPERATURE_CLOSENESS_RANGE with 0.15. change LIQUID_TEMPERATURE with 0.34.
  fold changing.
  unfold Model.runIsokinetic, Model.runAndersen. rewrite Hiso, Handersen.
  repeat split; intros ->; simpl; try reflexivity.
  destruct changing; simpl; [reflexivity|].
  destruct (0.34 <? temperatureSetPoint m); reflexivity.
Qed.

(** X16.  Of two calls of [setTemperature] the later one decides: the model
    after [setTemperature( t1 )] and then [setTemperature( t2 )] is the model
    after [setTemperature( t2 )] alone.  So the call is idempotent. *)
Theorem setTemperature_last_wins (t1 t2 : float) (m : t) :
  Model.setTemperature t2 (Model.setTemperature t1 m) = Model.setTemperature t2 m
  /\ Model.setTemperature t1 (Model.setTemperature t1 m) = Model.setTemperature t1 m.
Proof.
  assert (H : forall a b, Model.setTemperature b (Model.setTemperature a m)
                          = Model.setTemperature b m).
  { intros a b. destruct m as [iso andersen ? ? ? ? ? ? ? ? ? ? ?].
    unfold Model.setTemperature. simpl.
    destruct (MAX_TEMPERATURE <? a), (a <? MIN_TEMPERATURE),
      (MAX_TEMPERATURE <? b), (b <? MIN_TEMPERATURE), iso, andersen; reflexivity. }
  split; apply H.
Qed.

(** X17.  [setThermostatType] accepts the four thermostat settings 0 to 3
    and nothing else: for one of them it returns and only [thermostatType]
    changes, to it; for any other number it raises an error that names the
    number, and the model is as it was. *)
Theorem setThermostatType_spec (numberToString : Z -> string) (type : Z) (m : t) :
  let result := ModelMore.setThermostatType numberToString type m in
  ((0 <= type <= 3)%Z ->
     result = (Normal tt, ModelMore.with_thermostatType type m)
     /\ thermostatType result.2 = type)
  /\ (~ (0 <= type <= 3)%Z ->
      result
      = (Throw (Error ("Thermostat type setting out of range: "
                       +:+ numberToString type)), m)).
Proof.
  intros result. subst result. unfold ModelMore.setThermostatType,
    NO_THERMOSTAT, ISOKINETIC_THERMOSTAT, ANDERSEN_THERMOSTAT, ADAPTIVE_THERMOSTAT.
  split.
  - intros Hrange.
    assert (Hcases : type = 0%Z \/ type = 1%Z \/ type = 2%Z \/ type = 3%Z) by lia.
    destruct Hcases as [-> | [-> | [-> | ->]]]; split; reflexivity.
  - intros Hout.
    destruct (Z.eqb_spec type 0); [lia|]. destruct (Z.eqb_spec type 1); [lia|].
    destruct (Z.eqb_spec type 2); [lia|]. destruct (Z.eqb_spec type 3); [lia|].
    reflexivity.
Qed.

(** X18.  [mapTemperatureToPhase] gives one of the three phases, and a
    higher set point never gives a lower phase: solid, then liquid, then gas. *)
Theorem mapTemperatureToPhase_monotone (m1 m2 : t) :
  (1 <= ModelMore.mapTemperatureToPhase m1 <= 3)%Z
  /\ ((temperatureSetPoint m1 <=? temperatureSetPoint m2) = true ->
      (ModelMore.mapTemperatureToPhase m1 <= ModelMore.mapTemperatureToPhase m2)%Z).
Proof.
  unfold ModelMore.mapTemperatureToPhase, ModelMore.PHASE_SOLID,
    ModelMore.PHASE_LIQUID, ModelMore.PHASE_GAS.
  set (solidLimit := ModelMore.SOLID_TEMPERATURE
                     + (LIQUID_TEMPERATURE - ModelMore.SOLID_TEMPERATURE) / 2).
  set (liquidLimit := LIQUID_TEMPERATURE
                      + (ModelMore.GAS_TEMPERATURE - LIQUID_TEMPERATURE) / 2).
  split.
  - destruct (temperatureSetPoint m1 <? solidLimit);
      [|destruct (temperatureSetPoint m1 <? liquidLimit)]; lia.
  - intros Hle.
    destruct (temperatureSetPoint m1 <? solidLimit) eqn:H1s.
    { destruct (temperatureSetPoint m2 <? solidLimit);
        [|destruct (temperatureSetPoint m2 <? liquidLimit)]; lia. }
    destruct (temperatureSetPoint m2 <? solidLimit) eqn:H2s.
    { rewrite (leb_ltb_trans _ _ _ Hle H2s) in H1s. discriminate H1s. }
    destruct (temperatureSetPoint m1 <? liquidLimit) eqn:H1l.
    { destruct (temperatureSetPoint m2 <? liquidLimit); lia. }
    destruct (temperatureSetPoint m2 <? liquidLimit) eqn:H2l; [|lia].
    rewrite (leb_ltb_trans _ _ _ Hle H2l) in H1l. discriminate H1l.
Qed.

End ModelMoreProperties.

Section KelvinReading.

Import MultipleParticleModel.
Local Open Scope float_scope.

Variable NEON ARGON USER_DEFINED_MOLECULE WATER DIATOMIC_OXYGEN : Z.

(** X19.  [convertInternalTemperatureToKelvin] for a set point below the
    triple point of the model (0.26): the reading is 0 exactly when there are
    no particles or the set point is at or below [minModelTemperature]; any
    other reading is not below 0.5, whatever the molecule. *)
Theorem kelvin_below_triple_point (s : ModelMore.species) (m : t) :
  (temperatureSetPoint m <? 0.26) = true ->
  let kelvin :=
    ModelMore.convertInternalTemperatureToKelvin NEON ARGON USER_DEFINED_MOLECULE
      WATER DIATOMIC_OXYGEN s m in
  (kelvin = 0 <->
   ModelMore.numberOfParticles s = 0%Z
   \/ (temperatureSetPoint m <=? ModelMore.minModelTemperature s) = true)
  /\ (kelvin <> 0 -> (kelvin <? 0.5) = false).
Proof.
  intros Hbelow kelvin. subst kelvin.
  unfold ModelMore.convertInternalTemperatureToKelvin.
  change ModelMore.TRIPLE_POINT_MONATOMIC_MODEL_TEMPERATURE with 0.26.
  destruct (Z.eqb_spec (ModelMore.numberOfParticles s) 0) as [Hnone|Hsome].
  { split; [split; [intros _; left; exact Hnone | reflexivity]|].
    intros H. contradiction. }
  destruct (ModelMore.triplePointAndCriticalPoint _ _ _ _ _ _)
    as [triplePoint criticalPoint].
  destruct (temperatureSetPoint m <=? ModelMore.minModelTemperature s) eqn:Hmin.
  { split; [split; [intros _; right; reflexivity | reflexivity]|].
    intros H. contradiction. }
  rewrite Hbelow.
  set (r := temperatureSetPoint m * triplePoint / 0.26).
  assert (Hr : ((if r <? 0.5 then 0.5 else r) <? 0.5) = false).
  { destruct (r <? 0.5) eqn:E; [reflexivity | exact E]. }
  split; [|intros _; exact Hr].
  split.
  - intros Hzero. rewrite Hzero in Hr. discriminate Hr.
  - intros [Hnone|Hlow]; [contradiction | discriminate Hlow].
Qed.

End KelvinReading.

(** ** Instances *)

Lemma removeMolecule_raises_before_last_witness :
  MoleculeForceAndMotionDataSet.numberOfAtoms SampleMore.threeAtomDataSet
  = (Zpos (MoleculeForceAndMotionDataSet.atomsPerMolecule SampleMore.threeAtomDataSet) * 3)%Z
  /\ (MoleculeForceAndMotionDataSet.removeMolecule 1 SampleMore.threeAtomDataSet).1
     = Js.Throw Js.ReferenceError
  /\ MoleculeForceAndMotionDataSet.numberOfAtoms
       (MoleculeForceAndMotionDataSet.removeMolecule 1 SampleMore.threeAtomDataSet).2
     = MoleculeForceAndMotionDataSet.numberOfAtoms SampleMore.threeAtomDataSet
  /\ DataSetViews.moleculeRecord
       (MoleculeForceAndMotionDataSet.removeMolecule 1 SampleMore.threeAtomDataSet).2
       (Js.key 1)
     = DataSetViews.moleculeRecord SampleMore.threeAtomDataSet (Js.key 2)
  /\ (MoleculeForceAndMotionDataSet.removeMolecule 2 SampleMore.threeAtomDataSet).1
     = Js.Normal tt.
Proof.
  pose proof (proj2 (removeMolecule_raises_before_last 1 3 SampleMore.threeAtomDataSet
                       eq_refl ltac:(lia)) ltac:(lia))
    as (Hraise & Hcount & _ & _ & _ & Hrecords & _).
  pose proof (proj1 (removeMolecule_raises_before_last 2 3 SampleMore.threeAtomDataSet
                       eq_refl ltac:(lia)) eq_refl) as Hlast.
  split; [reflexivity|]. split; [exact Hraise|]. split; [exact Hcount|].
  split; [exact (Hrecords 1%Z ltac:(lia))|].
  rewrite Hlast. reflexivity.
Defined.

Lemma removeMolecule_after_addMolecule_witness :
  MoleculeForceAndMotionDataSet.numberOfAtoms (Sample.oneAtomDataSet 500)
  = (Zpos (MoleculeForceAndMotionDataSet.atomsPerMolecule (Sample.oneAtomDataSet 500)) * 1)%Z
  /\ MoleculeForceAndMotionDataSet.numberOfAtoms
       (MoleculeForceAndMotionDataSet.removeMolecule 1
          (MoleculeForceAndMotionDataSet.addMolecule 500 [Vector2.make 7 8]
             (Vector2.make 7 8) Vector2.zero 0%float (Sample.oneAtomDataSet 500)).2).2
     = MoleculeForceAndMotionDataSet.numberOfAtoms (Sample.oneAtomDataSet 500).
Proof.
  split; [reflexivity|].
  refine (proj1 (proj2 (removeMolecule_after_addMolecule 500 [Vector2.make 7 8]
                   (Vector2.make 7 8) Vector2.zero 0%float 1
                   (Sample.oneAtomDataSet 500) eq_refl _ _ _))).
  - lia.
  - vm_compute. discriminate.
  - simpl. lia.
Defined.

Lemma calculateTemperature_reversed_witness :
  MoleculeForceAndMotionDataSet.atomsPerMolecule (Sample.oneAtomDataSet 500) = 1%positive
  /\ MoleculeForceAndMotionDataSet.calculateTemperatureFromKineticEnergy Sample.pow
       (DataSetViews.reverseVelocities (Sample.oneAtomDataSet 500))
     = MoleculeForceAndMotionDataSet.calculateTemperatureFromKineticEnergy Sample.pow
         (Sample.oneAtomDataSet 500).
Proof.
  split; [reflexivity|].
  apply (calculateTemperature_reversed Sample.pow (Sample.oneAtomDataSet 500)).
  left. reflexivity.
Defined.

Lemma calculateWallForce_far_from_walls_witness :
  Verlet.calculateWallForce Sample.pow (Some (Vector2.make 10 10)) 20 30
    (Some (Vector2.make 3 4)) AbstractVerletAlgorithm.new Sample.intactModel
  = (Some (Vector2.make 3 4), AbstractVerletAlgorithm.new, Sample.intactModel).
Proof.
  apply (calculateWallForce_far_from_walls Sample.pow (Vector2.make 10 10)
           (Vector2.make 3 4) 20 30 AbstractVerletAlgorithm.new Sample.intactModel);
    reflexivity.
Defined.

Lemma exploded_is_absorbing_witness :
  MultipleParticleModel.isExploded Sample.explodedModel = true
  /\ AbstractVerletAlgorithm.pressure
       (CalculatorRun.run Sample.pow Sample.distance
          [CalculatorRun.CalculateWallForce (Some (Vector2.make 1 (-1))) 20 30
             (Some Vector2.zero);
           CalculatorRun.UpdateMoleculeSafety;
           CalculatorRun.UpdatePressure 100000000]
          (AbstractVerletAlgorithm.make 0 7 0, Sample.explodedModel)).1 = 0%float.
Proof.
  split; [reflexivity|].
  refine (proj2 (exploded_is_absorbing Sample.pow Sample.distance _
                   (AbstractVerletAlgorithm.make 0 7 0) Sample.explodedModel eq_refl)
            [CalculatorRun.CalculateWallForce (Some (Vector2.make 1 (-1))) 20 30
               (Some Vector2.zero);
             CalculatorRun.UpdateMoleculeSafety]
            100000000%float eq_refl).
Defined.

Lemma calculateWallForce_beyond_right_wall_witness :
  MultipleParticleModel.isExploded Sample.explodedModel = true
  /\ (20 - Vector2.x (Vector2.make 21 5) <? 0)%float = true
  /\ Verlet.calculateWallForce Sample.pow (Some (Vector2.make 21 5)) 20 30
       (Some Vector2.zero) AbstractVerletAlgorithm.new Sample.explodedModel
     = (Some (Vector2.make 24 0),
        AbstractVerletAlgorithm.make 1 0 0, Sample.explodedModel).
Proof.
  split; [reflexivity|]. split; [reflexivity|].
  rewrite (calculateWallForce_beyond_right_wall Sample.pow (Vector2.make 21 5)
             Vector2.zero 20 30 AbstractVerletAlgorithm.new Sample.explodedModel
             eq_refl eq_refl eq_refl eq_refl).
  reflexivity.
Defined.

(** An atom half a diameter below the top of a container 30 high, well
    above the threshold of 27.5: [particlesNearTop] returns [false]. *)
Example particlesNearTop_atom_at_top :
  Js.get (MoleculeForceAndMotionDataSet.moleculeCenterOfMassPositions
            (DataSetViews.addMolecules 500 [SampleMore.atomAt 10 29.5]
               Sample.emptyMonatomicDataSet)) (Js.key 0)
  = Some (Vector2.make 10 29.5)
  /\ (MultipleParticleModel.normalizedContainerHeight SampleMore.nearTopModel - 2.5
      <? 29.5)%float = true
  /\ Model.particlesNearTop SampleMore.nearTopModel = Js.Normal false.
Proof. repeat split. Qed.

Lemma runThermostat_while_height_changes_witness :
  MultipleParticleModel.heightChangeCounter SampleMore.resizingModel = 25%Z
  /\ Model.runThermostat (fun _ d => d) (fun _ d => d) SampleMore.resizingModel
     = (Js.Throw Js.ReferenceError, SampleMore.resizingModel).
Proof.
  split; [reflexivity|].
  apply (runThermostat_while_height_changes (fun _ d => d) (fun _ d => d)
           SampleMore.resizingModel AbstractVerletAlgorithm.new);
    [reflexivity | reflexivity | discriminate].
Defined.

Lemma runThermostat_selection_witness :
  MultipleParticleModel.thermostatType Sample.intactModel
  = MultipleParticleModel.ADAPTIVE_THERMOSTAT
  /\ Model.thermostatsRun
       (Model.runThermostat (fun _ d => d) (fun _ d => d)
          Sample.intactModel).1 = [Thermostat.Andersen].
Proof.
  split; [reflexivity|].
  exact (proj2 (proj2 (proj2
           (runThermostat_selection (fun _ d => d) (fun _ d => d)
              Sample.intactModel AbstractVerletAlgorithm.new
              (Thermostat.make 0.15) (Thermostat.make 0.15)
              eq_refl eq_refl eq_refl eq_refl eq_refl))) eq_refl).
Defined.

Lemma kelvin_below_triple_point_witness :
  (MultipleParticleModel.temperatureSetPoint Sample.intactModel <? 0.26)%float = true
  /\ ModelMore.convertInternalTemperatureToKelvin 1 2 3 4 5
       (ModelMore.makeSpecies 0 1 0.005) Sample.intactModel = 0%float.
Proof.
  split; [reflexivity|].
  apply (proj1 (kelvin_below_triple_point 1 2 3 4 5 (ModelMore.makeSpecies 0 1 0.005)
                  Sample.intactModel eq_refl)).
  left. reflexivity.
Defined.

(** Neon at the set point 0.15: 0.15 * 23 / 0.26 Kelvin. *)
Example kelvin_of_solid_neon :
  ModelMore.convertInternalTemperatureToKelvin 1 2 3 4 5
    (ModelMore.makeSpecies 100 1 0.005) Sample.intactModel
  = (0.15 * 23 / 0.26)%float.
Proof. reflexivity. Qed.

(** The message of an out-of-range thermostat type, with the decimal form
    of the number. *)
Example setThermostatType_message :
  (ModelMore.setThermostatType pretty 7 Sample.intactModel).1
  = Js.Throw (Js.Error "Thermostat type setting out of range: 7")
  /\ (ModelMore.setThermostatType pretty (-1) Sample.intactModel).1
     = Js.Throw (Js.Error "Thermostat type setting out of range: -1").
Proof. split; reflexivity. Qed.
